(** * kjudge: the scoring worker (package [worker])

    A shallow embedding of the worker that scores a submission
    ([Score], [ScoreGroup], [ComputePenalties], [UpdateVerdict],
    [CompareScores], [MissingTests]) and the properties its design
    document states about it.

    Conventions of the embedding:
    - Go's [float64] is Rocq's primitive binary64 [float]; every operation
      rounds on its own (no fused multiply-add), as the default amd64
      build does.
    - Go's [int] and [int64] are 64-bit two's complement integers, carried
      in [Z] with the wrap-around written out ([wrap64]).  A counter that
      only counts elements of a slice is kept in [Z] unwrapped, since it is
      bounded by the slice's length.
    - [time.Time] is an instant in nanoseconds, [time.Duration] an [int64]
      count of nanoseconds.
    - a pointer that may be nil is an [option]; a panic or a returned
      [error] is a constructor of [outcome]. *)

From Stdlib Require Import ZArith Lia Floats.
From stdpp Require Import gmap strings list.

Set Warnings "-inexact-float".
Open Scope Z_scope.

(** ** 64-bit integers and durations *)

Module Int64.

Definition MinInt64 : Z := - 2 ^ 63.
Definition MaxInt64 : Z := 2 ^ 63 - 1.

(** Two's complement wrap-around of a mathematical integer. *)
Definition wrap64 (z : Z) : Z := (z + 2 ^ 63) mod 2 ^ 64 - 2 ^ 63.

Definition add (x y : Z) : Z := wrap64 (x + y).
Definition sub (x y : Z) : Z := wrap64 (x - y).
Definition mul (x y : Z) : Z := wrap64 (x * y).
(** Go's [/] on integers truncates towards zero. *)
Definition div (x y : Z) : Z := wrap64 (Z.quot x y).

End Int64.

Module Time.

(** [time.Time]: nanoseconds since a fixed origin. *)
Definition Time : Type := Z.
(** [time.Duration]: an [int64] number of nanoseconds. *)
Definition Duration : Type := Z.

Definition Nanosecond : Duration := 1.
Definition Second : Duration := 1000000000.
Definition Minute : Duration := 60 * Second.

(** [t.Sub(u)]: the duration [t - u], saturating at the largest and
    smallest [Duration]. *)
Definition Sub (t u : Time) : Duration :=
  if t - u <? Int64.MinInt64 then Int64.MinInt64
  else if Int64.MaxInt64 <? t - u then Int64.MaxInt64
  else t - u.

End Time.

(** ** float64 *)

Module F64.

(** [float64(n)] of an [int]: the nearest binary64 value, ties to even. *)
Definition of_int (z : Z) : float :=
  if z =? Int64.MinInt64 then (-0x1p63)%float
  else if z <? 0 then (- of_uint63 (Uint63.of_Z (- z)))%float
  else of_uint63 (Uint63.of_Z z).

(** [x >= y] on [float64]: false as soon as one side is NaN. *)
Definition geb (x y : float) : bool := (y <=? x)%float.

(** [math.Min] of Go's standard library, with its special cases. *)
Definition Min (x y : float) : float :=
  if (is_infinity x && get_sign x) || (is_infinity y && get_sign y)
  then neg_infinity
  else if is_nan x || is_nan y then nan
  else if (x =? 0)%float && (x =? y)%float
       then (if get_sign x then x else y)
  else if (x <? y)%float then x else y.

End F64.

(** ** Outcomes: a value, a returned [error], or a panic *)

Definition error : Type := string.

(** The panics of the worker, one constructor per site. *)
Inductive panic : Type :=
| UnknownTestScoringMode (msg : string)
    (** [panic("Unknown Scoring Mode: " + tg.ScoringMode)] in [ScoreGroup] *)
| UnknownPenaltyPolicy
    (** [panic(s)] in the [default] case of [ComputePenalties] *)
| UnknownScoringMode
    (** [panic(s)] in the [default] case of [CompareScores] *)
| NilDereference.
    (** the runtime's panic on [result.Score] with [result == nil] *)

Inductive outcome (A : Type) : Type :=
| Ok (a : A)
| Err (e : error)
| Panic (p : panic).
Arguments Ok {A} a.
Arguments Err {A} e.
Arguments Panic {A} p.

Definition bind {A B} (m : outcome A) (k : A -> outcome B) : outcome B :=
  match m with
  | Ok a => k a
  | Err e => Err e
  | Panic p => Panic p
  end.

Notation "'let!' x ':=' m 'in' k" := (bind m (fun x => k))
  (at level 10, x name, m at level 200, k at level 200).

(** [for _, b := range l { a = body(a, b) }], stopping at the first error
    or panic. *)
Fixpoint for_range {A B} (body : A -> B -> outcome A) (l : list B) (a : A)
  : outcome A :=
  match l with
  | [] => Ok a
  | b :: l' => let! a' := body a b in for_range body l' a'
  end.

(** Dereferencing a pointer that a map lookup returned. *)
Definition deref {A} (p : option A) : outcome A :=
  match p with
  | Some a => Ok a
  | None => Panic NilDereference
  end.

(** [len(l)] as an [int]. *)
Definition len {A} (l : list A) : Z := Z.of_nat (length l).

(** ** Data model (package [models])

    Modelled from the spec: package [models] is not part of the sources at
    hand.  The structs below carry the fields the worker reads and writes;
    the three enumerations list the constants the worker's switches name,
    and every other value of the underlying string type is [..Other]. *)

Inductive TestScoringMode : Type :=
| TestScoringModeSum
| TestScoringModeMin
| TestScoringModeProduct
| TestScoringModeOther (raw : string).

Inductive PenaltyPolicy : Type :=
| PenaltyPolicyNone
| PenaltyPolicyICPC
| PenaltyPolicySubmitTime
| PenaltyPolicyOther (raw : string).

Inductive ScoringMode : Type :=
| ScoringModeOnce
| ScoringModeLast
| ScoringModeDecay
| ScoringModeBest
| ScoringModeOther (raw : string).

(** [sql.NullFloat64] and [sql.NullInt64]. *)
Module NullFloat64.
Record t : Type := mk { Float64 : float; Valid : bool }.
End NullFloat64.

Module NullInt64.
Record t : Type := mk { Int64 : Z; Valid : bool }.
End NullInt64.

Module Test.
Record t : Type := mk { ID : Z }.
End Test.

Module TestResult.
Record t : Type := mk { TestID : Z; Score : float }.
End TestResult.

Module TestGroupWithTests.
Record t : Type := mk {
  Score : float;
  ScoringMode : TestScoringMode;
  Tests : list Test.t
}.
End TestGroupWithTests.

Module Submission.
Record t : Type := mk {
  ID : Z;
  UserID : string;
  ProblemID : Z;
  CompiledSource : option (list Byte.byte);   (** [nil] is [None] *)
  Score : NullFloat64.t;
  Penalty : NullInt64.t;
  Verdict : string;
  SubmittedAt : Time.Time
}.

Definition set_Score (v : NullFloat64.t) (s : t) : t :=
  mk (ID s) (UserID s) (ProblemID s) (CompiledSource s) v (Penalty s)
     (Verdict s) (SubmittedAt s).
Definition set_Penalty (v : NullInt64.t) (s : t) : t :=
  mk (ID s) (UserID s) (ProblemID s) (CompiledSource s) (Score s) v
     (Verdict s) (SubmittedAt s).
Definition set_Verdict (v : string) (s : t) : t :=
  mk (ID s) (UserID s) (ProblemID s) (CompiledSource s) (Score s)
     (Penalty s) v (SubmittedAt s).
End Submission.

Module Problem.
Record t : Type := mk {
  ID : Z;
  PenaltyPolicy : PenaltyPolicy;
  ScoringMode : ScoringMode
}.
End Problem.

Module Contest.
Record t : Type := mk { StartTime : Time.Time; EndTime : Time.Time }.
End Contest.

Module ProblemResult.
Record t : Type := mk {
  BestSubmissionID : NullInt64.t;
  Penalty : Z;
  Score : float;
  Solved : bool;
  ProblemID : Z;
  UserID : string
}.
End ProblemResult.

(** [models.Job], built by [NewJobRun] and [NewJobScore]. *)
Inductive Job : Type :=
| NewJobRun (submissionID testID : Z)
| NewJobScore (submissionID : Z).

(** ** The worker: the functions that need no storage *)

Definition VerdictCompileError : string := "Compile Error".
Definition VerdictScored : string := "Scored".
Definition VerdictAccepted : string := "Accepted".

(** Returns (score, penalty, should_count). *)
Definition scoreOf (sub : option Submission.t) : float * Z * bool :=
  match sub with
  | None => (0%float, 0, false)
  | Some sub =>
      if bool_decide (Submission.CompiledSource sub = None)
         || negb (NullFloat64.Valid (Submission.Score sub))
         || negb (NullInt64.Valid (Submission.Penalty sub))
      then (0%float, 0, false)
      else (NullFloat64.Float64 (Submission.Score sub),
            NullInt64.Int64 (Submission.Penalty sub), true)
  end.

(** ScoreGroup returns the score for a group.
    If it returns false, the group's result should be hidden. *)
Definition ScoreGroup (tg : TestGroupWithTests.t)
    (results : gmap Z TestResult.t) : outcome (float * bool) :=
  if (TestGroupWithTests.Score tg <? 0)%float then Ok (0%float, false)
  else
    match TestGroupWithTests.ScoringMode tg with
    | TestScoringModeSum =>
        let! score :=
          for_range (fun score test =>
                       let! result := deref (results !! Test.ID test) in
                       Ok (score + TestResult.Score result)%float)
                    (TestGroupWithTests.Tests tg) 0%float in
        Ok ((TestGroupWithTests.Score tg
             * (score / F64.of_int (len (TestGroupWithTests.Tests tg))))%float,
            true)
    | TestScoringModeMin =>
        let! ratio :=
          for_range (fun ratio test =>
                       let! result := deref (results !! Test.ID test) in
                       Ok (if (ratio <? TestResult.Score result)%float
                           then TestResult.Score result else ratio))
                    (TestGroupWithTests.Tests tg) 1%float in
        Ok ((TestGroupWithTests.Score tg * ratio)%float, true)
    | TestScoringModeProduct =>
        let! ratio :=
          for_range (fun ratio test =>
                       let! result := deref (results !! Test.ID test) in
                       Ok (ratio * TestResult.Score result)%float)
                    (TestGroupWithTests.Tests tg) 1%float in
        Ok ((TestGroupWithTests.Score tg * ratio)%float, true)
    | TestScoringModeOther raw =>
        Panic (UnknownTestScoringMode ("Unknown Scoring Mode: " +:+ raw))
    end.

(** MissingTests finds all the tests that are missing a TestResult. *)
Definition MissingTests (tests : list TestGroupWithTests.t)
    (results : gmap Z TestResult.t) : list Test.t :=
  fold_left
    (fun res tg =>
       fold_left
         (fun res test =>
            match results !! Test.ID test with
            | Some _ => res
            | None => res ++ [test]
            end)
         (TestGroupWithTests.Tests tg) res)
    tests [].

(** Update the submission's verdict. *)
Definition UpdateVerdict (tests : list TestGroupWithTests.t)
    (sub : Submission.t) : Submission.t :=
  let '(score, _, counts) := scoreOf (Some sub) in
  if negb counts then Submission.set_Verdict VerdictCompileError sub
  else
    let maxPossibleScore :=
      fold_left
        (fun maxPossibleScore tg =>
           if (0 <? TestGroupWithTests.Score tg)%float
           then (maxPossibleScore + TestGroupWithTests.Score tg)%float
           else maxPossibleScore)
        tests 0%float in
    if (score =? maxPossibleScore)%float
    then Submission.set_Verdict VerdictAccepted sub
    else Submission.set_Verdict VerdictScored sub.

(** ** Storage (the transaction [*sqlx.Tx] and the queries of [models])

    Modelled from the spec: the queries and writes of package [models]
    are not part of the sources at hand.  The worker is written against
    this interface; a read returns rows or an error, a write returns the
    transaction after it or an error. *)
Inductive result (A : Type) : Type :=
| Success (a : A)
| Failure (e : error).
Arguments Success {A} a.
Arguments Failure {A} e.

(** [v, err := query(...)] followed by [if err != nil { return err }]. *)
Definition propagate {A} (r : result A) : outcome A :=
  match r with
  | Success a => Ok a
  | Failure e => Err e
  end.

Class Storage (Tx : Type) : Type := {
  GetSubmissionTestResults : Tx -> Z -> result (list TestResult.t);
  GetProblemTests : Tx -> Z -> result (list TestGroupWithTests.t);
  GetUserProblemSubmissions : Tx -> string -> Z -> result (list Submission.t);
  BatchInsertJobs : Tx -> list Job -> result Tx;
  Submission_Write : Submission.t -> Tx -> result Tx;
  ProblemResult_Write : ProblemResult.t -> Tx -> result Tx
}.

(** ScoreContext is a context for calculating a submission's score
    and update the user's problem scores. *)
Module ScoreContext.
Record t (Tx : Type) : Type := mk {
  DB : Tx;
  Sub : Submission.t;
  Problem : Problem.t;
  Contest : Contest.t
}.
Arguments mk {Tx}.
Arguments DB {Tx}.
Arguments Sub {Tx}.
Arguments Problem {Tx}.
Arguments Contest {Tx}.

Definition set_DB {Tx} (db : Tx) (s : t Tx) : t Tx :=
  mk db (Sub s) (Problem s) (Contest s).
Definition set_Sub {Tx} (sub : Submission.t) (s : t Tx) : t Tx :=
  mk (DB s) sub (Problem s) (Contest s).
End ScoreContext.

(** The loop state of [CompareScores]. *)
Module Best.
Record t : Type := mk {
  maxScore : float;
  which : option Submission.t;
  counted : Z
}.
End Best.

Section Worker.

Context {Tx : Type} `{Storage Tx}.

Abbreviation ctx := (ScoreContext.t Tx).

(** *** State passing for [Score]: the context [s] is updated in place. *)
Definition ScoreM (A : Type) : Type := ctx -> outcome A * ctx.

Definition ret {A} (a : A) : ScoreM A := fun s => (Ok a, s).

Definition seq {A B} (m : ScoreM A) (k : A -> ScoreM B) : ScoreM B :=
  fun s =>
    match m s with
    | (Ok a, s') => k a s'
    | (Err e, s') => (Err e, s')
    | (Panic p, s') => (Panic p, s')
    end.

Notation "'do!' x ':=' m 'in' k" := (seq m (fun x => k))
  (at level 10, x name, m at level 200, k at level 200).

(** A computation that reads the context. *)
Definition reads {A} (f : ctx -> outcome A) : ScoreM A := fun s => (f s, s).

(** A write to storage: the transaction moves on when it succeeds. *)
Definition writes (f : ctx -> result Tx) : ScoreM unit :=
  fun s =>
    match f s with
    | Success db => (Ok tt, ScoreContext.set_DB db s)
    | Failure e => (Err e, s)
    end.

(** An assignment to a field of [s.Sub]. *)
Definition modify_Sub (f : Submission.t -> Submission.t) : ScoreM unit :=
  fun s => (Ok tt, ScoreContext.set_Sub (f (ScoreContext.Sub s)) s).

Fixpoint for_each {B} (l : list B) (body : B -> ScoreM unit) : ScoreM unit :=
  match l with
  | [] => ret tt
  | b :: l' => do! _u := body b in for_each l' body
  end.

(** TestResults returns the submission's test results, mapped by the
    test's ID. *)
Definition TestResults (s : ctx) : outcome (gmap Z TestResult.t) :=
  let! trs := propagate (GetSubmissionTestResults (ScoreContext.DB s)
                     (Submission.ID (ScoreContext.Sub s))) in
  Ok (fold_left (fun res tr => <[TestResult.TestID tr := tr]> res) trs ∅).

(** The loop of the ICPC case: [id] is the index of the row at hand,
    [value] is left as it is when no row has the submission's ID. *)
Fixpoint ICPC_scan (subID : Z) (subs : list Submission.t) (id value : Z) : Z :=
  match subs with
  | [] => value
  | s :: subs' =>
      if subID =? Submission.ID s then Int64.mul 20 id
      else ICPC_scan subID subs' (id + 1) value
  end.

(** The [SubmitTime] case, which the ICPC case falls through to. *)
Definition SubmitTime_add (s : ctx) (sub : Submission.t) (value : Z) : Z :=
  Int64.add value
    (Int64.div
       (Int64.sub
          (Int64.add
             (Time.Sub (Submission.SubmittedAt sub)
                       (Contest.StartTime (ScoreContext.Contest s)))
             Time.Minute)
          1)
       Time.Minute).

(** ComputePenalties compute penalty values for each submission, based on
    the PenaltyPolicy.  The submission [sub] is returned with its
    [Penalty] set. *)
Definition ComputePenalties (s : ctx) (sub : Submission.t)
  : outcome Submission.t :=
  let value := 0 in
  let! value :=
    match Problem.PenaltyPolicy (ScoreContext.Problem s) with
    | PenaltyPolicyNone => Ok value
    | PenaltyPolicyICPC =>
        let! subs := propagate (GetUserProblemSubmissions (ScoreContext.DB s)
                            (Submission.UserID (ScoreContext.Sub s))
                            (Problem.ID (ScoreContext.Problem s))) in
        let value := ICPC_scan (Submission.ID sub) subs 0 value in
        Ok (SubmitTime_add s sub value)
    | PenaltyPolicySubmitTime => Ok (SubmitTime_add s sub value)
    | PenaltyPolicyOther _ => Panic UnknownPenaltyPolicy
    end in
  Ok (Submission.set_Penalty (NullInt64.mk value true) sub).

(** The [Best] case of [CompareScores], which [Decay] falls through to. *)
Definition Best_case (st : Best.t) (sub : Submission.t) (score : float)
  : Best.t :=
  match Best.which st with
  | None => Best.mk score (Some sub) (Best.counted st)
  | Some which =>
      if F64.geb score (NullFloat64.Float64 (Submission.Score which))
      then Best.mk score (Some sub) (Best.counted st)
      else st
  end.

(** The score [Decay] puts in the place of the stored one. *)
Definition Decay_score (s : ctx) (contestTime : float)
    (sub : Submission.t) (counted : Z) : float :=
  F64.Min 0.3
    ((1.0 - 0.7 * F64.of_int
                    (Time.Sub (Submission.SubmittedAt sub)
                              (Contest.StartTime (ScoreContext.Contest s)))
            / contestTime)
     * (1.0 - 0.1 * F64.of_int counted))%float.

(** One turn of the loop of [CompareScores]. *)
Definition CompareScores_step (s : ctx) (contestTime : float)
    (st : Best.t) (sub : Submission.t) : outcome Best.t :=
  let '(score, _, counts) := scoreOf (Some sub) in
  if negb counts then Ok st
  else
    let! st' :=
      match Problem.ScoringMode (ScoreContext.Problem s) with
      | ScoringModeOnce =>
          match Best.which st with
          | None => Ok (Best.mk score (Some sub) (Best.counted st))
          | Some _ => Ok st
          end
      | ScoringModeLast => Ok (Best.mk score (Some sub) (Best.counted st))
      | ScoringModeDecay =>
          let score := Decay_score s contestTime sub (Best.counted st) in
          Ok (Best_case st sub score)
      | ScoringModeBest => Ok (Best_case st sub score)
      | ScoringModeOther _ => Panic UnknownScoringMode
      end in
    Ok (Best.mk (Best.maxScore st') (Best.which st') (Best.counted st' + 1)).

Definition contestTime (s : ctx) : float :=
  F64.of_int (Time.Sub (Contest.EndTime (ScoreContext.Contest s))
                       (Contest.StartTime (ScoreContext.Contest s))).

Definition CompareScores_loop (s : ctx) (subs : list Submission.t)
  : outcome Best.t :=
  for_range (CompareScores_step s (contestTime s)) subs
            (Best.mk 0%float None 0).

(** The standing returned when no submission counts. *)
Definition no_standing (s : ctx) : ProblemResult.t :=
  ProblemResult.mk (NullInt64.mk 0 false) 0 0%float false
    (Problem.ID (ScoreContext.Problem s))
    (Submission.UserID (ScoreContext.Sub s)).

(** CompareScores compare the submission results and return the best one. *)
Definition CompareScores (s : ctx) (subs : list Submission.t)
  : outcome ProblemResult.t :=
  let! st := CompareScores_loop s subs in
  let '(_, penalty, counts) := scoreOf (Best.which st) in
  match Best.which st with
  | Some which =>
      if negb counts then Ok (no_standing s)
      else
        Ok (ProblemResult.mk
              (NullInt64.mk (Submission.ID which) true)
              penalty
              (Best.maxScore st)
              (bool_decide (Submission.Verdict which = VerdictAccepted))
              (Problem.ID (ScoreContext.Problem s))
              (Submission.UserID (ScoreContext.Sub s)))
  | None => Ok (no_standing s)
  end.

(** The jobs [Score] inserts when tests are missing. *)
Definition missing_jobs (subID : Z) (missing : list Test.t) : list Job :=
  let jobs :=
    fold_left (fun jobs m => jobs ++ [NewJobRun subID (Test.ID m)])
              missing [] in
  jobs ++ [NewJobScore subID].

(** Score does scoring on a submission and updates the user's
    ProblemResult. *)
Definition Score : ScoreM unit :=
  do! testResults := reads TestResults in
  do! tests := reads (fun s => propagate (GetProblemTests (ScoreContext.DB s)
                                      (Problem.ID (ScoreContext.Problem s)))) in
  let missing := MissingTests tests testResults in
  if 0 <? len missing then
    writes (fun s =>
              BatchInsertJobs (ScoreContext.DB s)
                (missing_jobs (Submission.ID (ScoreContext.Sub s)) missing))
  else
    do! _u := modify_Sub (Submission.set_Score (NullFloat64.mk 0 true)) in
    do! _u :=
      for_each tests (fun tg =>
        do! r := reads (fun _ => ScoreGroup tg testResults) in
        if snd r then
          modify_Sub (fun sub =>
            Submission.set_Score
              (NullFloat64.mk
                 (NullFloat64.Float64 (Submission.Score sub) + fst r)%float
                 (NullFloat64.Valid (Submission.Score sub)))
              sub)
        else ret tt) in
    do! sub := reads (fun s => ComputePenalties s (ScoreContext.Sub s)) in
    do! _u := modify_Sub (fun _ => sub) in
    do! _u := modify_Sub (UpdateVerdict tests) in
    do! _u := writes (fun s => Submission_Write (ScoreContext.Sub s)
                                 (ScoreContext.DB s)) in
    do! subs := reads (fun s =>
                  propagate (GetUserProblemSubmissions (ScoreContext.DB s)
                         (Submission.UserID (ScoreContext.Sub s))
                         (Problem.ID (ScoreContext.Problem s)))) in
    do! pr := reads (fun s => CompareScores s subs) in
    writes (fun s => ProblemResult_Write pr (ScoreContext.DB s)).

End Worker.

(** ** An in-memory transaction

    Modelled from the spec: the tables behind package [models], which is
    not part of the sources at hand.  Rows are kept in insertion order;
    [Write] replaces the row with the same key or appends a new one; no
    operation fails.  [log] records every write the worker asks for. *)
Module MemStore.

Inductive Op : Type :=
| OpBatchInsertJobs (jobs : list Job)
| OpSubmissionWrite (sub : Submission.t)
| OpProblemResultWrite (pr : ProblemResult.t).

Record t : Type := mk {
  submissions : list Submission.t;
  test_results : list (Z * TestResult.t);      (** submission ID, row *)
  tests : list (Z * TestGroupWithTests.t);     (** problem ID, group *)
  jobs : list Job;
  problem_results : list ProblemResult.t;
  log : list Op
}.

Definition same_standing (a b : ProblemResult.t) : bool :=
  bool_decide (ProblemResult.UserID a = ProblemResult.UserID b)
  && (ProblemResult.ProblemID a =? ProblemResult.ProblemID b).

(** Replace the first row that [same] selects, or append. *)
Fixpoint upsert {A} (same : A -> bool) (row : A) (rows : list A) : list A :=
  match rows with
  | [] => [row]
  | r :: rows' => if same r then row :: rows' else r :: upsert same row rows'
  end.

#[global] Instance storage : Storage t := {|
  GetSubmissionTestResults tx subID :=
    Success (map snd (filter (fun r => fst r = subID) (test_results tx)));
  GetProblemTests tx problemID :=
    Success (map snd (filter (fun r => fst r = problemID) (tests tx)));
  GetUserProblemSubmissions tx userID problemID :=
    Success (filter (fun sub => Submission.UserID sub = userID
                                /\ Submission.ProblemID sub = problemID)
                    (submissions tx));
  BatchInsertJobs tx js :=
    Success (mk (submissions tx) (test_results tx) (tests tx)
                (jobs tx ++ js) (problem_results tx)
                (log tx ++ [OpBatchInsertJobs js]));
  Submission_Write sub tx :=
    Success (mk (upsert (fun r => Submission.ID r =? Submission.ID sub)
                        sub (submissions tx))
                (test_results tx) (tests tx) (jobs tx) (problem_results tx)
                (log tx ++ [OpSubmissionWrite sub]));
  ProblemResult_Write pr tx :=
    Success (mk (submissions tx) (test_results tx) (tests tx) (jobs tx)
                (upsert (same_standing pr) pr (problem_results tx))
                (log tx ++ [OpProblemResultWrite pr]))
|}.

End MemStore.

(** ** The vocabulary of the design document *)

(** A counting submission: compiled source, a valid score and a valid
    penalty. *)
Definition counting (sub : Submission.t) : bool :=
  bool_decide (Submission.CompiledSource sub <> None)
  && NullFloat64.Valid (Submission.Score sub)
  && NullInt64.Valid (Submission.Penalty sub).

(** The score stored on a submission. *)
Definition stored_score (sub : Submission.t) : float :=
  NullFloat64.Float64 (Submission.Score sub).

(** The number of counting submissions of a list, as an [int]. *)
Definition count_counting (subs : list Submission.t) : Z :=
  len (filter (fun sub => counting sub = true) subs).

(** The sum of the weights over the groups with weight > 0, added in the
    order of the groups, from 0.0. *)
Definition sumPositiveWeights (tests : list TestGroupWithTests.t) : float :=
  fold_left PrimFloat.add
    (filter (fun w => (0 <? w)%float = true)
            (map TestGroupWithTests.Score tests))
    0%float.

(** The scores of the results of the tests of a group, in the order of the
    tests (a test without a result has none). *)
Definition group_scores (results : gmap Z TestResult.t) (tests : list Test.t)
  : list float :=
  omap (fun test => TestResult.Score <$> results !! Test.ID test) tests.

(** Every test of the list has a result. *)
Definition all_present (results : gmap Z TestResult.t) (tests : list Test.t)
  : Prop :=
  Forall (fun test => is_Some (results !! Test.ID test)) tests.

(** The running maximum of a value that starts at [init]: it is raised to
    each score that is greater than it. *)
Definition running_max (init : float) (scores : list float) : float :=
  fold_left (fun r x => if (r <? x)%float then x else r) scores init.

(** The sum of the scores, added in order from 0.0. *)
Definition sum_scores (scores : list float) : float :=
  fold_left PrimFloat.add scores 0%float.

(** The tests that have no result, group after group. *)
Definition lacking (tests : list TestGroupWithTests.t)
    (results : gmap Z TestResult.t) : list Test.t :=
  flat_map
    (fun tg => filter (fun test => results !! Test.ID test = None)
                      (TestGroupWithTests.Tests tg))
    tests.

(** A duration in whole minutes, any partial minute rounded up. *)
Definition ceil_minutes (d : Time.Duration) : Z := - ((- d) / Time.Minute).

(** The 0-based index of the first row with the given ID. *)
Fixpoint index_of (subID : Z) (subs : list Submission.t) : option nat :=
  match subs with
  | [] => None
  | s :: subs' =>
      if subID =? Submission.ID s then Some 0%nat
      else S <$> index_of subID subs'
  end.

(** ** Sample data *)

Module Ex.

(** Two tests with results 1.0 and 0.5, and a third result of 1.5. *)
Definition results : gmap Z TestResult.t :=
  <[1 := TestResult.mk 1 1.0]> (<[2 := TestResult.mk 2 0.5]>
    (<[3 := TestResult.mk 3 1.5]> ∅)).

Definition sum_group : TestGroupWithTests.t :=
  TestGroupWithTests.mk 10 TestScoringModeSum [Test.mk 1; Test.mk 2].

Definition min_group : TestGroupWithTests.t :=
  TestGroupWithTests.mk 10 TestScoringModeMin [Test.mk 1; Test.mk 2].

Definition min_group_over : TestGroupWithTests.t :=
  TestGroupWithTests.mk 10 TestScoringModeMin [Test.mk 2; Test.mk 3; Test.mk 1].

(** A hidden group (negative weight) whose mode is none of the three. *)
Definition hidden_group : TestGroupWithTests.t :=
  TestGroupWithTests.mk (-1) (TestScoringModeOther "AVERAGE") [Test.mk 1].

(** A submission of user alice to problem 1, scored [score] with penalty
    0, sent [minutes] minutes after the origin of time. *)
Definition scored (id : Z) (score : float) (minutes : Z) : Submission.t :=
  Submission.mk id "alice" 1 (Some []) (NullFloat64.mk score true)
    (NullInt64.mk 0 true) VerdictScored (minutes * Time.Minute).

(** A submission that did not compile and was never scored. *)
Definition uncompiled (id : Z) (minutes : Z) : Submission.t :=
  Submission.mk id "alice" 1 None (NullFloat64.mk 0 false)
    (NullInt64.mk 0 false) "" (minutes * Time.Minute).

(** A contest of five hours that starts at the origin of time. *)
Definition contest : Contest.t := Contest.mk 0 (300 * Time.Minute).

(** Three submissions of alice to problem 1; the third one was sent 125
    minutes into the contest. *)
Definition three_subs : list Submission.t :=
  [scored 11 40 10; scored 12 70 60; scored 13 55 125].

Definition store (subs : list Submission.t)
    (groups : list TestGroupWithTests.t) (rows : list (Z * TestResult.t))
    (standings : list ProblemResult.t) : MemStore.t :=
  MemStore.mk subs rows (map (fun tg => (1, tg)) groups) [] standings [].

Definition ctx (db : MemStore.t) (sub : Submission.t) (p : PenaltyPolicy)
    (m : ScoringMode) : ScoreContext.t MemStore.t :=
  ScoreContext.mk db sub (Problem.mk 1 p m) contest.

(** The third submission is scored under the ICPC policy. *)
Definition icpc_ctx : ScoreContext.t MemStore.t :=
  ctx (store three_subs [] [] []) (scored 13 55 125) PenaltyPolicyICPC
      ScoringModeBest.

(** A compiled submission that waits for its score. *)
Definition pending (id : Z) (minutes : Z) : Submission.t :=
  Submission.mk id "alice" 1 (Some []) (NullFloat64.mk 0 false)
    (NullInt64.mk 0 false) "" (minutes * Time.Minute).

(** Submission 13 has a result for test 1 and none for test 2. *)
Definition missing_ctx : ScoreContext.t MemStore.t :=
  ctx (store [pending 13 125] [sum_group] [(13, TestResult.mk 1 1.0)] [])
      (pending 13 125) PenaltyPolicyNone ScoringModeBest.

(** The standing of alice on problem 1 left by an earlier scoring. *)
Definition old_standing : ProblemResult.t :=
  ProblemResult.mk (NullInt64.mk 20 true) 0 10 true 1 "alice".

(** The only submission of alice to problem 1 did not compile; its two
    tests have results of 0; a standing of an earlier scoring is stored. *)
Definition compile_error_ctx : ScoreContext.t MemStore.t :=
  ctx (store [uncompiled 21 30] [sum_group]
             [(21, TestResult.mk 1 0); (21, TestResult.mk 2 0)]
             [old_standing])
      (uncompiled 21 30) PenaltyPolicyNone ScoringModeBest.

(** A group of weight 20 in Product mode over tests 4 and 5, with results
    0.5 and 0.8. *)
Definition product_group : TestGroupWithTests.t :=
  TestGroupWithTests.mk 20 TestScoringModeProduct [Test.mk 4; Test.mk 5].

Definition product_results : gmap Z TestResult.t :=
  <[4 := TestResult.mk 4 0.5]> (<[5 := TestResult.mk 5 0.8]> ∅).

(** The same contest under the Best and the Decay policies. *)
Definition best_ctx : ScoreContext.t MemStore.t :=
  ctx (store three_subs [] [] []) (scored 13 55 125) PenaltyPolicyNone
      ScoringModeBest.

Definition decay_ctx : ScoreContext.t MemStore.t :=
  ctx (store three_subs [] [] []) (scored 13 55 125) PenaltyPolicyNone
      ScoringModeDecay.

End Ex.

(** ** More vocabulary: totals *)

(** The product of the scores, multiplied in order from 1.0. *)
Definition product_scores (scores : list float) : float :=
  fold_left PrimFloat.mul scores 1%float.

(** What a group whose weight is not below zero adds to the score of a
    submission, read off the three modes of [ScoreGroup].  (A group of
    another mode makes the scoring panic; it has no contribution, and 0.0
    stands in its place.) *)
Definition contribution (tg : TestGroupWithTests.t)
    (results : gmap Z TestResult.t) : float :=
  let scores := group_scores results (TestGroupWithTests.Tests tg) in
  match TestGroupWithTests.ScoringMode tg with
  | TestScoringModeSum =>
      (TestGroupWithTests.Score tg
       * (sum_scores scores
          / F64.of_int (len (TestGroupWithTests.Tests tg))))%float
  | TestScoringModeMin =>
      (TestGroupWithTests.Score tg * running_max 1 scores)%float
  | TestScoringModeProduct =>
      (TestGroupWithTests.Score tg * product_scores scores)%float
  | TestScoringModeOther _ => 0%float
  end.

(** The contributions of the groups whose weight is not below zero, added
    in the order of the groups, from [start]. *)
Definition total_from (start : float) (tests : list TestGroupWithTests.t)
    (results : gmap Z TestResult.t) : float :=
  fold_left
    (fun total tg =>
       if (TestGroupWithTests.Score tg <? 0)%float then total
       else (total + contribution tg results)%float)
    tests start.

(** ** The two halves of [Score], by name

    The body of the loop over the groups and the steps after it, as
    [Score] has them; [Score] unfolds to them (lemma [Score_unfold]). *)
Section ScoreParts.

Context {Tx : Type} `{Storage Tx}.

(** [score, counts := ScoreGroup(tg, testResults)] and, when [counts],
    [s.Sub.Score.Float64 += score]. *)
Definition add_group (testResults : gmap Z TestResult.t)
    (tg : TestGroupWithTests.t) : @ScoreM Tx unit :=
  seq (reads (fun _ => ScoreGroup tg testResults))
      (fun r =>
         if snd r then
           modify_Sub (fun sub =>
             Submission.set_Score
               (NullFloat64.mk
                  (NullFloat64.Float64 (Submission.Score sub) + fst r)%float
                  (NullFloat64.Valid (Submission.Score sub)))
               sub)
         else ret tt).

(** Penalty, verdict, the write of the submission, and the update of the
    standing. *)
Definition Score_tail (tests : list TestGroupWithTests.t) : @ScoreM Tx unit :=
  seq (reads (fun s => ComputePenalties s (ScoreContext.Sub s))) (fun sub =>
  seq (modify_Sub (fun _ => sub)) (fun _ =>
  seq (modify_Sub (UpdateVerdict tests)) (fun _ =>
  seq (writes (fun s => Submission_Write (ScoreContext.Sub s)
                          (ScoreContext.DB s))) (fun _ =>
  seq (reads (fun s =>
         propagate (GetUserProblemSubmissions (ScoreContext.DB s)
                      (Submission.UserID (ScoreContext.Sub s))
                      (Problem.ID (ScoreContext.Problem s))))) (fun subs =>
  seq (reads (fun s => CompareScores s subs)) (fun pr =>
  writes (fun s => ProblemResult_Write pr (ScoreContext.DB s)))))))).

(** The score after the loop over the groups, read off [ScoreGroup]. *)
Definition accumulate (testResults : gmap Z TestResult.t)
    (tests : list TestGroupWithTests.t) (start : float) : float :=
  fold_left
    (fun total tg =>
       match ScoreGroup tg testResults with
       | Ok (score, true) => (total + score)%float
       | _ => total
       end)
    tests start.

End ScoreParts.

(** ** The submission page (package [contests])

    Modelled from the spec: the structs [ContestCtx], [models.Problem] and
    [echo.Context], the helper [getContestCtx] and the queries of package
    [models] are not part of the sources at hand; they carry what
    [getSubmissionCtx] reads. *)

(** [echo.ErrNotFound], [echo.ErrForbidden], by their messages. *)
Definition ErrNotFound : error := "code=404, message=Not Found".
Definition ErrForbidden : error := "code=403, message=Forbidden".

Module EchoContext.
(** [c.Param(name)]: the path parameter, or the empty string. *)
Record t : Type := mk { Param : string -> string }.
End EchoContext.

(** [ContestCtx], as [getSubmissionCtx] reads it: [contest.Contest.ID] and
    [contest.Me.ID]. *)
Module ContestCtx.
Record t : Type := mk { Contest_ID : Z; Me_ID : string }.
End ContestCtx.

(** [models.Problem], as the page reads it: the fields the worker reads,
    and [ContestID]. *)
Module ProblemRow.
Record t : Type := mk { Problem : Problem.t; ContestID : Z }.
End ProblemRow.

(** SubmissionCtx is the context for rendering the submission page.
    [TestResults] is a nil map ([None]) unless it was filled. *)
Module SubmissionCtx.
Record t : Type := mk {
  ContestCtx : ContestCtx.t;
  Submission : Submission.t;
  Problem : ProblemRow.t;
  TestGroups : list TestGroupWithTests.t;
  TestResults : option (gmap Z TestResult.t)
}.
End SubmissionCtx.

(** [strconv.Atoi] of Go's standard library, for a 64-bit [int]: an
    optional sign followed by one or more decimal digits, within the range
    of an [int64]; anything else is an error. *)
Definition byte_of (c : Ascii.ascii) : Z := Z.of_N (Ascii.N_of_ascii c).

(** The value of a character between '0' (48) and '9' (57). *)
Definition digit_of (c : Ascii.ascii) : option Z :=
  let n := byte_of c in
  if (48 <=? n) && (n <=? 57) then Some (n - 48) else None.

Fixpoint digits_of (s : string) (acc : Z) : option Z :=
  match s with
  | EmptyString => Some acc
  | String c s' =>
      match digit_of c with
      | Some d => digits_of s' (10 * acc + d)
      | None => None
      end
  end.

Definition Atoi (s : string) : option Z :=
  match s with
  | EmptyString => None
  | String c s' =>
      let neg := byte_of c =? 45 in                       (* '-' *)
      let body := if neg || (byte_of c =? 43) then s' else s in   (* '+' *)
      match body with
      | EmptyString => None
      | _ =>
          match digits_of body 0 with
          | Some n =>
              let v := if neg then - n else n in
              if (Int64.MinInt64 <=? v) && (v <=? Int64.MaxInt64)
              then Some v else None
          | None => None
          end
      end
  end.

(** What the page asks of its collaborators.  [IsErrNoRows err] is
    [errors.Is(err, sql.ErrNoRows)]. *)
Class PageQueries (DB : Type) : Type := {
  getContestCtx : DB -> EchoContext.t -> result ContestCtx.t;
  GetSubmission : DB -> Z -> result Submission.t;
  GetProblem : DB -> Z -> result ProblemRow.t;
  GetProblemTestsMeta : DB -> Z -> result (list TestGroupWithTests.t);
  IsErrNoRows : error -> bool
}.

Section Page.

Context {DB : Type} `{Storage DB} `{PageQueries DB}.

(** Collect a submission ctx. *)
Definition getSubmissionCtx (db : DB) (c : EchoContext.t)
  : outcome SubmissionCtx.t :=
  let! contest := propagate (getContestCtx db c) in
  let idStr := EchoContext.Param c "submission" in
  match Atoi idStr with
  | None => Err ErrNotFound
  | Some id =>
      match GetSubmission db id with
      | Failure err => if IsErrNoRows err then Err ErrNotFound else Err err
      | Success sub =>
          (* Disallow non-owners *)
          if bool_decide (Submission.UserID sub <> ContestCtx.Me_ID contest)
          then Err ErrForbidden
          else
            let! problem := propagate (GetProblem db (Submission.ProblemID sub)) in
            (* Disallow submissions outside of current contest *)
            if bool_decide (ProblemRow.ContestID problem
                            <> ContestCtx.Contest_ID contest)
            then Err ErrNotFound
            else
              let! testGroups :=
                propagate (GetProblemTestsMeta db
                             (Problem.ID (ProblemRow.Problem problem))) in
              let! testResults :=
                if NullFloat64.Valid (Submission.Score sub) then
                  let! trs := propagate (GetSubmissionTestResults db
                                           (Submission.ID sub)) in
                  Ok (Some (fold_left
                              (fun res tr => <[TestResult.TestID tr := tr]> res)
                              trs ∅))
                else Ok None in
              Ok (SubmissionCtx.mk contest sub problem testGroups testResults)
      end
  end.

End Page.

(** ** An in-memory site for the page

    Modelled from the spec: the tables the page reads, and the session
    [getContestCtx] resolves.  A missing row is [sql.ErrNoRows]. *)
Module MemSite.

Definition ErrNoRows : error := "sql: no rows in result set".

Record t : Type := mk {
  store : MemStore.t;
  problems : list ProblemRow.t;
  session : result ContestCtx.t
}.

Definition first_or_no_rows {A} (rows : list A) : result A :=
  match rows with
  | r :: _ => Success r
  | [] => Failure ErrNoRows
  end.

Definition lift_write (f : MemStore.t -> result MemStore.t) (db : t)
  : result t :=
  match f (store db) with
  | Success st => Success (mk st (problems db) (session db))
  | Failure e => Failure e
  end.

#[global] Instance storage : Storage t := {|
  GetSubmissionTestResults db := GetSubmissionTestResults (store db);
  GetProblemTests db := GetProblemTests (store db);
  GetUserProblemSubmissions db := GetUserProblemSubmissions (store db);
  BatchInsertJobs db js := lift_write (fun st => BatchInsertJobs st js) db;
  Submission_Write sub := lift_write (Submission_Write sub);
  ProblemResult_Write pr := lift_write (ProblemResult_Write pr)
|}.

#[global] Instance queries : PageQueries t := {|
  getContestCtx db _ := session db;
  GetSubmission db id :=
    first_or_no_rows
      (filter (fun sub => Submission.ID sub = id)
              (MemStore.submissions (store db)));
  GetProblem db id :=
    first_or_no_rows
      (filter (fun p => Problem.ID (ProblemRow.Problem p) = id) (problems db));
  GetProblemTestsMeta db id := GetProblemTests (store db) id;
  IsErrNoRows err := bool_decide (err = ErrNoRows)
|}.

End MemSite.

(** ** More sample data *)

Module Ex2.

(** A submission of bob to problem 1. *)
Definition bobs (id : Z) : Submission.t :=
  Submission.mk id "bob" 1 (Some []) (NullFloat64.mk 30 true)
    (NullInt64.mk 0 true) VerdictScored (20 * Time.Minute).

(** Problem 1 belongs to contest 7, problem 2 to contest 8. *)
Definition problems : list ProblemRow.t :=
  [ProblemRow.mk (Problem.mk 1 PenaltyPolicyNone ScoringModeBest) 7;
   ProblemRow.mk (Problem.mk 2 PenaltyPolicyNone ScoringModeBest) 8].

(** Alice is logged in to contest 7.  Submission 11 is hers and scored,
    submission 15 is hers and waits for its score, submission 31 is
    bob's. *)
Definition site : MemSite.t :=
  MemSite.mk
    (Ex.store [Ex.scored 11 40 10; Ex.pending 15 50; bobs 31] [Ex.sum_group]
       [(11, TestResult.mk 1 1.0); (11, TestResult.mk 2 0.5);
        (11, TestResult.mk 2 0.25)] [])
    problems
    (Success (ContestCtx.mk 7 "alice")).

Definition request (id : string) : EchoContext.t :=
  EchoContext.mk (fun name => if bool_decide (name = "submission") then id
                              else "").

(** What alice is shown for her submission 11. *)
Definition page11 : SubmissionCtx.t :=
  SubmissionCtx.mk (ContestCtx.mk 7 "alice") (Ex.scored 11 40 10)
    (ProblemRow.mk (Problem.mk 1 PenaltyPolicyNone ScoringModeBest) 7)
    [Ex.sum_group]
    (Some (<[2 := TestResult.mk 2 0.25]>
             (<[2 := TestResult.mk 2 0.5]>
                (<[1 := TestResult.mk 1 1.0]> ∅)))).

(** A group of weight 5 in Sum mode without tests. *)
Definition empty_group : TestGroupWithTests.t :=
  TestGroupWithTests.mk 5 TestScoringModeSum [].

(** Submission 13 of alice has results for the tests of [Ex.sum_group] and
    of [Ex.product_group]; a hidden group reuses test 1. *)
Definition hidden : TestGroupWithTests.t :=
  TestGroupWithTests.mk (-1) TestScoringModeSum [Test.mk 1].

Definition full_rows : list (Z * TestResult.t) :=
  [(13, TestResult.mk 1 1.0); (13, TestResult.mk 2 0.5);
   (13, TestResult.mk 4 0.5); (13, TestResult.mk 5 0.8)].

Definition full_ctx (p : PenaltyPolicy) (m : ScoringMode)
  : ScoreContext.t MemStore.t :=
  Ex.ctx (Ex.store [Ex.scored 11 40 10; Ex.pending 13 125]
            [Ex.sum_group; hidden; Ex.product_group] full_rows [])
         (Ex.pending 13 125) p m.

End Ex2.

(** ** Nil entries in the map of results

    [results] is a [map[int]*models.TestResult]: an entry may hold a nil
    pointer.  The maps [TestResults] and [getSubmissionCtx] build hold
    none, and [ScoreGroup] above is written for those.  [ScoreGroup_ptr]
    is the same function on a map whose entries may be nil ([None]):
    [results[test.ID]] is then nil for a missing key and for a nil entry
    alike. *)

(** [results[id]], a pointer. *)
Definition lookup_ptr (results : gmap Z (option TestResult.t)) (id : Z)
  : option TestResult.t :=
  match results !! id with
  | Some p => p
  | None => None
  end.

Definition ScoreGroup_ptr (tg : TestGroupWithTests.t)
    (results : gmap Z (option TestResult.t)) : outcome (float * bool) :=
  if (TestGroupWithTests.Score tg <? 0)%float then Ok (0%float, false)
  else
    match TestGroupWithTests.ScoringMode tg with
    | TestScoringModeSum =>
        let! score :=
          for_range (fun score test =>
                       let! result := deref (lookup_ptr results (Test.ID test)) in
                       Ok (score + TestResult.Score result)%float)
                    (TestGroupWithTests.Tests tg) 0%float in
        Ok ((TestGroupWithTests.Score tg
             * (score / F64.of_int (len (TestGroupWithTests.Tests tg))))%float,
            true)
    | TestScoringModeMin =>
        let! ratio :=
          for_range (fun ratio test =>
                       let! result := deref (lookup_ptr results (Test.ID test)) in
                       Ok (if (ratio <? TestResult.Score result)%float
                           then TestResult.Score result else ratio))
                    (TestGroupWithTests.Tests tg) 1%float in
        Ok ((TestGroupWithTests.Score tg * ratio)%float, true)
    | TestScoringModeProduct =>
        let! ratio :=
          for_range (fun ratio test =>
                       let! result := deref (lookup_ptr results (Test.ID test)) in
                       Ok (ratio * TestResult.Score result)%float)
                    (TestGroupWithTests.Tests tg) 1%float in
        Ok ((TestGroupWithTests.Score tg * ratio)%float, true)
    | TestScoringModeOther raw =>
        Panic (UnknownTestScoringMode ("Unknown Scoring Mode: " +:+ raw))
    end.

(** The entries that hold a result: the nil entries are dropped. *)
Definition non_nil (results : gmap Z (option TestResult.t))
  : gmap Z TestResult.t :=
  omap (fun p => p) results.

(** ** The standing of a selected submission *)


(** ** Sample data for the Decay policy *)

Module Ex3.

Definition late : Submission.t := Ex.scored 12 0 299.

(** An early submission whose stored score is 0.28. *)
Definition early_028 : Submission.t := Ex.scored 11 0.28 10.

(** A map in which test 1 has a result and test 2 a nil entry. *)
Definition nil_entry : gmap Z (option TestResult.t) :=
  <[1 := Some (TestResult.mk 1 1.0)]> (<[2 := None]> ∅).

End Ex3.

(** * Facts

    ** 64-bit integers and durations *)

Module Int64Facts.
Import Int64.

Lemma wrap64_id z : MinInt64 <= z <= MaxInt64 -> wrap64 z = z.
Proof.
  unfold wrap64, MinInt64, MaxInt64. intros Hz.
  rewrite Z.mod_small by lia. lia.
Qed.

Lemma wrap64_range z : MinInt64 <= wrap64 z <= MaxInt64.
Proof.
  unfold wrap64, MinInt64, MaxInt64.
  pose proof (Z.mod_pos_bound (z + 2 ^ 63) (2 ^ 64) ltac:(lia)). lia.
Qed.

End Int64Facts.

Module TimeFacts.
Import Time.

Lemma Sub_exact t u :
  Int64.MinInt64 <= t - u <= Int64.MaxInt64 -> Sub t u = t - u.
Proof.
  intros H. unfold Sub.
  destruct (Z.ltb_spec (t - u) Int64.MinInt64); [lia|].
  destruct (Z.ltb_spec Int64.MaxInt64 (t - u)); [lia|]. reflexivity.
Qed.

End TimeFacts.

(** ** float64 *)

Module F64Facts.

(** *** The order of binary64, from its specification *)

Lemma SFcompare_antisym (x y : spec_float) :
  SFcompare y x = option_map CompOpp (SFcompare x y).
Proof.
  destruct x as [sx|sx| |sx mx ex], y as [sy|sy| |sy my ey]; simpl;
    try reflexivity;
    try (destruct sx; reflexivity); try (destruct sy; reflexivity);
    try (destruct sx, sy; reflexivity).
  destruct sx, sy; simpl; try reflexivity; f_equal.
  - rewrite (Z.compare_antisym ey ex).
    destruct (ey ?= ex); simpl; try reflexivity.
    rewrite Pos.compare_cont_antisym, CompOpp_involutive. reflexivity.
  - rewrite (Z.compare_antisym ey ex).
    destruct (ey ?= ex); simpl; try reflexivity.
    rewrite Pos.compare_cont_antisym. reflexivity.
Qed.

Lemma SFcompare_refl (x : spec_float) :
  x <> S754_nan -> SFcompare x x = Some Eq.
Proof.
  destruct x as [s|s| |s m e]; simpl; intros Hn; try congruence.
  - destruct s; reflexivity.
  - rewrite Z.compare_refl.
    change (Pos.compare_cont Eq m m) with (Pos.compare m m).
    rewrite Pos.compare_refl. destruct s; reflexivity.
Qed.

Lemma SFcompare_nan_l (x y : spec_float) :
  SFcompare x y <> None -> x <> S754_nan.
Proof. destruct x; simpl; congruence. Qed.

Lemma SFcompare_nan_r (x y : spec_float) :
  SFcompare x y <> None -> y <> S754_nan.
Proof. destruct x, y; simpl; congruence. Qed.

Lemma SFcompare_total (x y : spec_float) :
  x <> S754_nan -> y <> S754_nan -> SFcompare x y <> None.
Proof. destruct x, y; simpl; congruence. Qed.

(** [x <= y] in the sense of [SFcompare]. *)
Definition SFle (x y : spec_float) : Prop :=
  SFcompare x y = Some Lt \/ SFcompare x y = Some Eq.

Lemma SFle_trans (x y z : spec_float) : SFle x y -> SFle y z -> SFle x z.
Proof.
  unfold SFle.
  destruct x as [sx|sx| |sx mx ex], y as [sy|sy| |sy my ey],
    z as [sz|sz| |sz mz ez]; simpl;
    repeat match goal with
      | s : bool |- _ => destruct s
      end; simpl;
    try (intros [?|?] [?|?]; first [discriminate | (left; reflexivity)
                                   | (right; reflexivity)]).
  - change (Pos.compare_cont Eq ?a ?b) with (Pos.compare a b).
    destruct (Z.compare_spec ex ey), (Z.compare_spec ey ez),
      (Z.compare_spec ex ez),
      (Pos.compare_spec mx my), (Pos.compare_spec my mz),
      (Pos.compare_spec mx mz); simpl; intros [?|?] [?|?];
      first [discriminate | lia | (left; reflexivity) | (right; reflexivity)].
  - change (Pos.compare_cont Eq ?a ?b) with (Pos.compare a b).
    destruct (Z.compare_spec ex ey), (Z.compare_spec ey ez),
      (Z.compare_spec ex ez),
      (Pos.compare_spec mx my), (Pos.compare_spec my mz),
      (Pos.compare_spec mx mz); simpl; intros [?|?] [?|?];
      first [discriminate | lia | (left; reflexivity) | (right; reflexivity)].
Qed.

(** *** The same facts on primitive floats *)

Lemma is_nan_spec (x : float) : is_nan x = true <-> Prim2SF x = S754_nan.
Proof.
  unfold is_nan. rewrite FloatAxioms.eqb_spec. unfold SFeqb. split.
  - intros H. destruct (Prim2SF x) as [s|s| |s m e] eqn:E; try reflexivity;
      rewrite SFcompare_refl in H by congruence; discriminate.
  - intros ->. reflexivity.
Qed.

Lemma not_nan_spec (x : float) : is_nan x = false <-> Prim2SF x <> S754_nan.
Proof.
  rewrite <- is_nan_spec. destruct (is_nan x); split; congruence.
Qed.

Lemma leb_SFle (x y : float) :
  (x <=? y)%float = true <-> SFle (Prim2SF x) (Prim2SF y).
Proof.
  rewrite leb_spec. unfold SFleb, SFle.
  destruct (SFcompare (Prim2SF x) (Prim2SF y)) as [[]|]; split;
    intros; try reflexivity; try discriminate; try tauto;
    destruct H; discriminate.
Qed.

Lemma leb_trans (x y z : float) :
  (x <=? y)%float = true -> (y <=? z)%float = true -> (x <=? z)%float = true.
Proof. rewrite !leb_SFle. apply SFle_trans. Qed.

Lemma leb_refl (x : float) : is_nan x = false -> (x <=? x)%float = true.
Proof.
  rewrite not_nan_spec, leb_SFle. intros H. right. now apply SFcompare_refl.
Qed.

Lemma leb_not_nan (x y : float) :
  (x <=? y)%float = true -> is_nan x = false /\ is_nan y = false.
Proof.
  rewrite leb_spec, !not_nan_spec. unfold SFleb. intros H.
  split; [apply (SFcompare_nan_l _ (Prim2SF y))
         | apply (SFcompare_nan_r (Prim2SF x))];
    destruct (SFcompare (Prim2SF x) (Prim2SF y)); congruence.
Qed.

(** [x <= y] excludes [y < x]. *)
Lemma leb_ltb_false (x y : float) :
  (x <=? y)%float = true -> (y <? x)%float = false.
Proof.
  rewrite leb_spec, ltb_spec. unfold SFleb, SFltb.
  rewrite (SFcompare_antisym (Prim2SF x) (Prim2SF y)).
  destruct (SFcompare (Prim2SF x) (Prim2SF y)) as [[]|]; simpl; congruence.
Qed.

Lemma ltb_leb (x y : float) :
  (x <? y)%float = true -> (x <=? y)%float = true.
Proof.
  rewrite leb_spec, ltb_spec. unfold SFleb, SFltb.
  destruct (SFcompare (Prim2SF x) (Prim2SF y)) as [[]|]; congruence.
Qed.

(** On numbers, the comparison that fails can be turned around. *)
Lemma leb_false_ltb (x y : float) :
  is_nan x = false -> is_nan y = false ->
  (y <=? x)%float = false -> (x <? y)%float = true.
Proof.
  rewrite !not_nan_spec, leb_spec, ltb_spec. unfold SFleb, SFltb.
  intros Hx Hy. pose proof (SFcompare_total _ _ Hx Hy) as Ht.
  rewrite (SFcompare_antisym (Prim2SF x) (Prim2SF y)).
  destruct (SFcompare (Prim2SF x) (Prim2SF y)) as [[]|]; simpl; congruence.
Qed.

Lemma ltb_false_leb (x y : float) :
  is_nan x = false -> is_nan y = false ->
  (x <? y)%float = false -> (y <=? x)%float = true.
Proof.
  rewrite !not_nan_spec, leb_spec, ltb_spec. unfold SFleb, SFltb.
  intros Hx Hy. pose proof (SFcompare_total _ _ Hx Hy) as Ht.
  rewrite (SFcompare_antisym (Prim2SF x) (Prim2SF y)).
  destruct (SFcompare (Prim2SF x) (Prim2SF y)) as [[]|]; simpl; congruence.
Qed.

(** *** Multiplying by one is exact *)

Lemma digits2_pos_iter_xO (n mx : positive) :
  Z.pos (digits2_pos (Pos.iter xO mx n)) = Z.pos (digits2_pos mx) + Z.pos n.
Proof.
  induction n as [|n IH] using Pos.peano_ind.
  - simpl. lia.
  - rewrite Pos.iter_succ. simpl digits2_pos. lia.
Qed.

Lemma mul_1_r (w : float) : (w * 1)%float = w.
Proof.
  apply Prim2SF_inj. rewrite mul_spec.
  pose proof (Prim2SF_valid w) as Hv.
  change (Prim2SF 1%float) with (S754_finite false 4503599627370496 (-52)).
  destruct (Prim2SF w) as [s|s| |s mx ex]; try (destruct s; reflexivity).
  - reflexivity.
  - unfold SF64mul, SFmul.
    simpl in Hv. unfold bounded, canonical_mantissa in Hv.
    apply andb_prop in Hv as [Hc Hb]. apply Z.eqb_eq in Hc.
    rewrite Pos.mul_comm.
    replace (xorb s false) with s by (destruct s; reflexivity).
    change (4503599627370496 * mx)%positive with (Pos.iter xO mx 52).
    unfold binary_round_aux, shr_fexp. unfold Zdigits2 at 1.
    rewrite digits2_pos_iter_xO.
    replace (Z.pos (digits2_pos mx) + 52 + (ex + -52))
      with (Z.pos (digits2_pos mx) + ex) by lia.
    rewrite Hc. replace (ex - (ex + -52)) with 52 by lia.
    change (shr (shr_record_of_loc (Z.pos (Pos.iter xO mx 52)) loc_Exact)
              (ex + -52) 52)
      with ({| shr_m := Z.pos mx; shr_r := false; shr_s := false |},
            ex + -52 + 52).
    cbn [shr_m loc_of_shr_record round_nearest_even Zdigits2].
    replace (ex + -52 + 52) with ex by lia.
    rewrite Hc, Z.sub_diag. cbn [shr shr_record_of_loc shr_m].
    rewrite Hb. reflexivity.
Qed.

End F64Facts.

(** ** Loops *)

Lemma for_range_app {A B} (body : A -> B -> outcome A) (l1 l2 : list B) (a : A) :
  for_range body (l1 ++ l2) a
  = bind (for_range body l1 a) (for_range body l2).
Proof.
  revert a. induction l1 as [|b l1 IH]; intros a; simpl; [reflexivity|].
  destruct (body a b); simpl; auto.
Qed.

(** A loop that reads one result per test folds over the scores when
    every test has a result. *)
Lemma for_range_scores {A} (f : A -> float -> A)
    (results : gmap Z TestResult.t) (tests : list Test.t) (a : A) :
  all_present results tests ->
  for_range (fun a test =>
               let! result := deref (results !! Test.ID test) in
               Ok (f a (TestResult.Score result)))
            tests a
  = Ok (fold_left f (group_scores results tests) a).
Proof.
  intros Hall. revert a.
  induction Hall as [|test tests [r Hr] _ IH]; intros a; [reflexivity|].
  unfold group_scores. simpl. rewrite Hr. simpl. apply IH.
Qed.

Lemma group_scores_length results tests :
  all_present results tests ->
  length (group_scores results tests) = length tests.
Proof.
  induction 1 as [|test tests [r Hr] _ IH]; [reflexivity|].
  unfold group_scores in *. simpl. rewrite Hr. simpl. now f_equal.
Qed.

(** ** Verdicts *)

Lemma scoreOf_counting (sub : Submission.t) :
  scoreOf (Some sub)
  = if counting sub
    then (stored_score sub, NullInt64.Int64 (Submission.Penalty sub), true)
    else (0%float, 0, false).
Proof.
  unfold scoreOf, counting, stored_score.
  destruct (Submission.CompiledSource sub) as [src|];
    destruct (NullFloat64.Valid (Submission.Score sub));
    destruct (NullInt64.Valid (Submission.Penalty sub)); reflexivity.
Qed.

Lemma maxPossibleScore_filter (tests : list TestGroupWithTests.t) (a : float) :
  fold_left
    (fun maxPossibleScore tg =>
       if (0 <? TestGroupWithTests.Score tg)%float
       then (maxPossibleScore + TestGroupWithTests.Score tg)%float
       else maxPossibleScore)
    tests a
  = fold_left PrimFloat.add
      (filter (fun w => (0 <? w)%float = true)
              (map TestGroupWithTests.Score tests))
      a.
Proof.
  revert a. induction tests as [|tg tests IH]; intros a; [reflexivity|].
  simpl. rewrite filter_cons.
  destruct (0 <? TestGroupWithTests.Score tg)%float eqn:E.
  - rewrite decide_True by reflexivity. simpl. apply IH.
  - rewrite decide_False by discriminate. apply IH.
Qed.

(** C5: UpdateVerdict only sets the verdict, and the verdict depends on
    whether the submission counts and on the totals alone: "Compile Error"
    when the submission does not count (no compiled source, or score or
    penalty not set); "Accepted" when it counts and its score equals, by
    the equality of float64, the sum of the weights over the groups with
    weight > 0; "Scored" otherwise. *)
Theorem UpdateVerdict_classifies (tests : list TestGroupWithTests.t)
    (sub : Submission.t) :
  UpdateVerdict tests sub
  = Submission.set_Verdict
      (if negb (counting sub) then VerdictCompileError
       else if (stored_score sub =? sumPositiveWeights tests)%float
            then VerdictAccepted
            else VerdictScored)
      sub.
Proof.
  unfold UpdateVerdict. rewrite scoreOf_counting.
  destruct (counting sub); simpl; [|reflexivity].
  rewrite maxPossibleScore_filter. fold (sumPositiveWeights tests).
  destruct (stored_score sub =? sumPositiveWeights tests)%float; reflexivity.
Qed.

(** ** Scoring a group *)

Lemma ltb_not_nan (x y : float) :
  (x <? y)%float = true -> is_nan x = false /\ is_nan y = false.
Proof. intros E. apply F64Facts.leb_not_nan, F64Facts.ltb_leb, E. Qed.

Lemma running_max_not_nan (init : float) (scores : list float) :
  is_nan init = false -> is_nan (running_max init scores) = false.
Proof.
  revert init. induction scores as [|x scores IH]; intros init Hn; [exact Hn|].
  unfold running_max. simpl. fold (running_max (if (init <? x)%float then x else init) scores).
  destruct (init <? x)%float eqn:E; apply IH; [|exact Hn].
  apply ltb_not_nan in E. tauto.
Qed.

Lemma running_max_ge_init (init : float) (scores : list float) :
  is_nan init = false -> (init <=? running_max init scores)%float = true.
Proof.
  revert init. induction scores as [|x scores IH]; intros init Hn.
  - now apply F64Facts.leb_refl.
  - unfold running_max. simpl.
    fold (running_max (if (init <? x)%float then x else init) scores).
    destruct (init <? x)%float eqn:E; [|now apply IH].
    apply F64Facts.leb_trans with x; [now apply F64Facts.ltb_leb|].
    apply IH. apply ltb_not_nan in E. tauto.
Qed.

Lemma running_max_ge_elem (init x : float) (scores : list float) :
  is_nan init = false -> x ∈ scores -> is_nan x = false ->
  (x <=? running_max init scores)%float = true.
Proof.
  revert init. induction scores as [|y scores IH]; intros init Hn Hin Hx.
  - now apply elem_of_nil in Hin.
  - unfold running_max. simpl.
    fold (running_max (if (init <? y)%float then y else init) scores).
    assert (Hn' : is_nan (if (init <? y)%float then y else init) = false).
    { destruct (init <? y)%float eqn:E; [|exact Hn].
      apply ltb_not_nan in E. tauto. }
    apply elem_of_cons in Hin as [->|Hin]; [|now apply IH].
    destruct (init <? y)%float eqn:E.
    + now apply running_max_ge_init.
    + apply F64Facts.leb_trans with init.
      * now apply F64Facts.ltb_false_leb.
      * now apply running_max_ge_init.
Qed.

Lemma running_max_in (init : float) (scores : list float) :
  running_max init scores = init \/ running_max init scores ∈ scores.
Proof.
  revert init. induction scores as [|y scores IH]; intros init; [now left|].
  unfold running_max. simpl.
  fold (running_max (if (init <? y)%float then y else init) scores).
  destruct (IH (if (init <? y)%float then y else init)) as [E|Hin].
  - rewrite E. destruct (init <? y)%float; [right; apply elem_of_cons; now left | now left].
  - right. apply elem_of_cons. now right.
Qed.

(** When no score exceeds the start value, the running maximum stays
    where it started. *)
Lemma running_max_stays (init : float) (scores : list float) :
  Forall (fun x => (x <=? init)%float = true) scores ->
  running_max init scores = init.
Proof.
  induction 1 as [|x scores Hx _ IH]; [reflexivity|].
  unfold running_max. simpl. rewrite (F64Facts.leb_ltb_false _ _ Hx). exact IH.
Qed.

Lemma ScoreGroup_negative (tg : TestGroupWithTests.t)
    (results : gmap Z TestResult.t) :
  (TestGroupWithTests.Score tg <? 0)%float = true ->
  ScoreGroup tg results = Ok (0%float, false).
Proof. intros Hw. unfold ScoreGroup. now rewrite Hw. Qed.

Lemma ScoreGroup_Min_eq (tg : TestGroupWithTests.t)
    (results : gmap Z TestResult.t) :
  TestGroupWithTests.ScoringMode tg = TestScoringModeMin ->
  (TestGroupWithTests.Score tg <? 0)%float = false ->
  all_present results (TestGroupWithTests.Tests tg) ->
  ScoreGroup tg results
  = Ok ((TestGroupWithTests.Score tg
         * running_max 1 (group_scores results (TestGroupWithTests.Tests tg)))%float,
        true).
Proof.
  intros Hm Hw Hall. unfold ScoreGroup. rewrite Hw, Hm.
  rewrite (for_range_scores (fun r x => if (r <? x)%float then x else r)
             results _ _ Hall).
  reflexivity.
Qed.

(** C8: a group in Sum mode whose weight is not negative, with a result
    for every test, contributes weight * (sum of the scores of its tests /
    number of tests), and counts. *)
Theorem ScoreGroup_Sum (tg : TestGroupWithTests.t)
    (results : gmap Z TestResult.t) :
  TestGroupWithTests.ScoringMode tg = TestScoringModeSum ->
  (0 <=? TestGroupWithTests.Score tg)%float = true ->
  all_present results (TestGroupWithTests.Tests tg) ->
  ScoreGroup tg results
  = Ok ((TestGroupWithTests.Score tg
         * (sum_scores (group_scores results (TestGroupWithTests.Tests tg))
            / F64.of_int (len (TestGroupWithTests.Tests tg))))%float,
        true).
Proof.
  intros Hm Hw Hall. unfold ScoreGroup.
  rewrite (F64Facts.leb_ltb_false _ _ Hw), Hm.
  rewrite (for_range_scores PrimFloat.add results _ _ Hall).
  reflexivity.
Qed.

(** C6: a group in Min mode with a result for every test: when its weight
    is below zero it yields (0, false); when its weight is not negative it
    counts and contributes weight * ratio, where ratio is the running
    maximum, started at 1.0, of the scores of its tests.  That ratio is at
    least 1.0, at least every score that is a number, and is 1.0 or one of
    the scores: it is max(1.0, the greatest score). *)
Theorem ScoreGroup_Min (tg : TestGroupWithTests.t)
    (results : gmap Z TestResult.t) :
  TestGroupWithTests.ScoringMode tg = TestScoringModeMin ->
  all_present results (TestGroupWithTests.Tests tg) ->
  let scores := group_scores results (TestGroupWithTests.Tests tg) in
  let ratio := running_max 1 scores in
  ((TestGroupWithTests.Score tg <? 0)%float = true ->
   ScoreGroup tg results = Ok (0%float, false))
  /\ ((0 <=? TestGroupWithTests.Score tg)%float = true ->
      ScoreGroup tg results
      = Ok ((TestGroupWithTests.Score tg * ratio)%float, true))
  /\ (1 <=? ratio)%float = true
  /\ (forall x, x ∈ scores -> is_nan x = false -> (x <=? ratio)%float = true)
  /\ (ratio = 1%float \/ ratio ∈ scores).
Proof.
  intros Hm Hall scores ratio. repeat split.
  - apply ScoreGroup_negative.
  - intros Hw. apply ScoreGroup_Min_eq; auto.
    now apply F64Facts.leb_ltb_false.
  - now apply running_max_ge_init.
  - intros x Hx Hn. now apply running_max_ge_elem.
  - apply running_max_in.
Qed.

(** C10: a group in Min mode whose weight is not negative and whose tests
    all have a result with a score of at most 1.0 yields exactly
    (weight, true), however the tests scored. *)
Theorem ScoreGroup_Min_full_weight (tg : TestGroupWithTests.t)
    (results : gmap Z TestResult.t) :
  TestGroupWithTests.ScoringMode tg = TestScoringModeMin ->
  (0 <=? TestGroupWithTests.Score tg)%float = true ->
  Forall (fun test => exists r, results !! Test.ID test = Some r
                                /\ (TestResult.Score r <=? 1)%float = true)
         (TestGroupWithTests.Tests tg) ->
  ScoreGroup tg results = Ok (TestGroupWithTests.Score tg, true).
Proof.
  intros Hm Hw Hle.
  assert (Hall : all_present results (TestGroupWithTests.Tests tg)).
  { eapply Forall_impl; [exact Hle|]. intros test (r & Hr & _). now exists r. }
  rewrite ScoreGroup_Min_eq; auto using F64Facts.leb_ltb_false.
  rewrite running_max_stays, F64Facts.mul_1_r; [reflexivity|].
  clear Hall. induction Hle as [|test tests (r & Hr & Hs) _ IH]; [constructor|].
  unfold group_scores. simpl. rewrite Hr. simpl. constructor; assumption.
Qed.

(** C8, on the sample group: weight 10, two tests with results 1.0 and
    0.5, contributes exactly 7.5. *)
Lemma ScoreGroup_Sum_sample :
  ScoreGroup Ex.sum_group Ex.results = Ok (7.5%float, true).
Proof.
  apply (ScoreGroup_Sum Ex.sum_group Ex.results); try reflexivity.
  repeat constructor; eexists; reflexivity.
Defined.

(** C6, on a sample group with scores 0.5, 1.5 and 1.0: the ratio is 1.5
    and the group contributes 15. *)
Lemma ScoreGroup_Min_sample :
  ScoreGroup Ex.min_group_over Ex.results = Ok (15%float, true).
Proof.
  apply (ScoreGroup_Min Ex.min_group_over Ex.results); try reflexivity.
  repeat constructor; eexists; reflexivity.
Defined.

(** C10, on the sample group: results 1.0 and 0.5 under weight 10 give
    the full weight. *)
Lemma ScoreGroup_Min_full_weight_sample :
  ScoreGroup Ex.min_group Ex.results = Ok (10%float, true).
Proof.
  apply (ScoreGroup_Min_full_weight Ex.min_group Ex.results);
    try reflexivity.
  repeat constructor; eexists; (split; reflexivity).
Defined.

(** ** Where the worker panics *)

(** A loop that reads one result per test ends with a value or with the
    runtime's nil dereference, never with a panic of the worker's own. *)
Lemma for_range_scores_outcome {A} (f : A -> float -> A)
    (results : gmap Z TestResult.t) (tests : list Test.t) (a : A) :
  (exists v, for_range (fun a test =>
                          let! result := deref (results !! Test.ID test) in
                          Ok (f a (TestResult.Score result)))
                       tests a = Ok v)
  \/ for_range (fun a test =>
                  let! result := deref (results !! Test.ID test) in
                  Ok (f a (TestResult.Score result)))
               tests a = Panic NilDereference.
Proof.
  revert a. induction tests as [|test tests IH]; intros a; simpl.
  - left. now eexists.
  - destruct (results !! Test.ID test) as [r|]; simpl; [apply IH|now right].
Qed.

Lemma ScoreGroup_panics (tg : TestGroupWithTests.t)
    (results : gmap Z TestResult.t) (msg : string) :
  ScoreGroup tg results = Panic (UnknownTestScoringMode msg)
  <-> (TestGroupWithTests.Score tg <? 0)%float = false
      /\ exists raw,
         TestGroupWithTests.ScoringMode tg = TestScoringModeOther raw
         /\ msg = "Unknown Scoring Mode: " +:+ raw.
Proof.
  unfold ScoreGroup. split.
  - intros Hp.
    destruct (TestGroupWithTests.Score tg <? 0)%float; [discriminate|].
    split; [reflexivity|].
    destruct (TestGroupWithTests.ScoringMode tg) as [| | |raw].
    + destruct (for_range_scores_outcome PrimFloat.add results
                  (TestGroupWithTests.Tests tg) 0%float) as [[v E]|E];
        rewrite E in Hp; discriminate.
    + destruct (for_range_scores_outcome
                  (fun r x => if (r <? x)%float then x else r) results
                  (TestGroupWithTests.Tests tg) 1%float) as [[v E]|E];
        rewrite E in Hp; discriminate.
    + destruct (for_range_scores_outcome PrimFloat.mul results
                  (TestGroupWithTests.Tests tg) 1%float) as [[v E]|E];
        rewrite E in Hp; discriminate.
    + exists raw. split; [reflexivity|]. now inversion Hp.
  - intros [Hw [raw [Hm ->]]]. now rewrite Hw, Hm.
Qed.

Section WorkerFacts.

Context {Tx : Type} `{Storage Tx}.

Lemma ComputePenalties_panics (s : ScoreContext.t Tx) (sub : Submission.t)
    (p : panic) :
  ComputePenalties s sub = Panic p
  <-> p = UnknownPenaltyPolicy
      /\ exists raw,
         Problem.PenaltyPolicy (ScoreContext.Problem s) = PenaltyPolicyOther raw.
Proof.
  unfold ComputePenalties. split.
  - intros Hp.
    destruct (Problem.PenaltyPolicy (ScoreContext.Problem s)) as [| | |raw];
      try discriminate.
    + destruct (GetUserProblemSubmissions _ _ _); discriminate.
    + split; [now inversion Hp|now exists raw].
  - intros [-> [raw ->]]. reflexivity.
Qed.

Lemma CompareScores_step_skip (s : ScoreContext.t Tx) (ct : float)
    (st : Best.t) (sub : Submission.t) :
  counting sub = false -> CompareScores_step s ct st sub = Ok st.
Proof.
  intros Hc. unfold CompareScores_step. rewrite scoreOf_counting, Hc.
  reflexivity.
Qed.

Lemma CompareScores_step_Other (s : ScoreContext.t Tx) (ct : float)
    (st : Best.t) (sub : Submission.t) (raw : string) :
  Problem.ScoringMode (ScoreContext.Problem s) = ScoringModeOther raw ->
  counting sub = true ->
  CompareScores_step s ct st sub = Panic UnknownScoringMode.
Proof.
  intros Hm Hc. unfold CompareScores_step. rewrite scoreOf_counting, Hc, Hm.
  reflexivity.
Qed.

(** With one of the four selection policies, a turn of the loop yields a
    state. *)
Lemma CompareScores_step_known (s : ScoreContext.t Tx) (ct : float)
    (st : Best.t) (sub : Submission.t) :
  (forall raw,
     Problem.ScoringMode (ScoreContext.Problem s) <> ScoringModeOther raw) ->
  exists st', CompareScores_step s ct st sub = Ok st'.
Proof.
  intros Hm. unfold CompareScores_step. rewrite scoreOf_counting.
  destruct (counting sub); simpl; [|now eexists].
  destruct (Problem.ScoringMode (ScoreContext.Problem s)) as [| | | |raw];
    simpl; try (now eexists).
  - destruct (Best.which st); now eexists.
  - now destruct (Hm raw).
Qed.

Lemma for_range_step_known (s : ScoreContext.t Tx) (ct : float)
    (subs : list Submission.t) (st : Best.t) :
  (forall raw,
     Problem.ScoringMode (ScoreContext.Problem s) <> ScoringModeOther raw) ->
  exists st', for_range (CompareScores_step s ct) subs st = Ok st'.
Proof.
  intros Hm. revert st. induction subs as [|sub subs IH]; intros st; simpl.
  - now eexists.
  - destruct (CompareScores_step_known s ct st sub Hm) as [st' ->]. apply IH.
Qed.

Lemma for_range_step_none_counting (s : ScoreContext.t Tx) (ct : float)
    (subs : list Submission.t) (st : Best.t) :
  Forall (fun sub => counting sub = false) subs ->
  for_range (CompareScores_step s ct) subs st = Ok st.
Proof.
  induction 1 as [|sub subs Hc _ IH]; simpl; [reflexivity|].
  now rewrite CompareScores_step_skip.
Qed.

Lemma for_range_step_Other (s : ScoreContext.t Tx) (ct : float)
    (subs : list Submission.t) (st : Best.t) (raw : string) :
  Problem.ScoringMode (ScoreContext.Problem s) = ScoringModeOther raw ->
  Exists (fun sub => counting sub = true) subs ->
  for_range (CompareScores_step s ct) subs st = Panic UnknownScoringMode.
Proof.
  intros Hm Hex. revert st.
  induction subs as [|sub subs IH]; intros st; [inversion Hex|]. simpl.
  destruct (counting sub) eqn:Hc.
  - now rewrite (CompareScores_step_Other s ct st sub raw).
  - rewrite CompareScores_step_skip by assumption. simpl. apply IH.
    inversion Hex; subst; [congruence|assumption].
Qed.

(** After the loop, [CompareScores] builds its result without a failure. *)
Lemma CompareScores_of_loop (s : ScoreContext.t Tx)
    (subs : list Submission.t) (st : Best.t) :
  CompareScores_loop s subs = Ok st ->
  exists pr, CompareScores s subs = Ok pr.
Proof.
  intros E. unfold CompareScores. rewrite E. simpl.
  destruct (scoreOf (Best.which st)) as [[sc pen] c].
  destruct (Best.which st); [destruct c|]; simpl; now eexists.
Qed.

(** When no submission counts, the switch on the policy is never
    reached and the result is the empty standing. *)
Lemma CompareScores_no_counting (s : ScoreContext.t Tx)
    (subs : list Submission.t) :
  Forall (fun sub => counting sub = false) subs ->
  CompareScores s subs = Ok (no_standing s).
Proof.
  intros Hall. unfold CompareScores, CompareScores_loop.
  now rewrite for_range_step_none_counting.
Qed.

Lemma CompareScores_panics (s : ScoreContext.t Tx) (subs : list Submission.t)
    (p : panic) :
  CompareScores s subs = Panic p
  <-> p = UnknownScoringMode
      /\ (exists raw,
            Problem.ScoringMode (ScoreContext.Problem s) = ScoringModeOther raw)
      /\ Exists (fun sub => counting sub = true) subs.
Proof.
  split.
  - intros Hp.
    assert (Hmode : (exists raw, Problem.ScoringMode (ScoreContext.Problem s)
                                 = ScoringModeOther raw)
                    \/ forall raw, Problem.ScoringMode (ScoreContext.Problem s)
                                   <> ScoringModeOther raw).
    { destruct (Problem.ScoringMode (ScoreContext.Problem s)) as [| | | |raw];
        try (right; discriminate). left. now exists raw. }
    destruct Hmode as [[raw Hm]|Hm].
    + destruct (decide (Exists (fun sub => counting sub = true) subs))
        as [Hex|Hex].
      * unfold CompareScores, CompareScores_loop in Hp.
        rewrite (for_range_step_Other s (contestTime s) subs _ raw) in Hp
          by assumption.
        split; [now inversion Hp|]. split; [now exists raw|exact Hex].
      * apply not_Exists_Forall in Hex; [|intros x; apply _].
        rewrite CompareScores_no_counting in Hp; [discriminate|].
        eapply Forall_impl; [exact Hex|]. simpl. intros x Hx.
        now destruct (counting x).
    + destruct (for_range_step_known s (contestTime s) subs
                  (Best.mk 0%float None 0) Hm) as [st E].
      destruct (CompareScores_of_loop s subs st E) as [pr E'].
      rewrite E' in Hp. discriminate.
  - intros [-> [[raw Hm] Hex]].
    unfold CompareScores, CompareScores_loop.
    now rewrite (for_range_step_Other s (contestTime s) subs _ raw).
Qed.

(** C9, as the code has it: the fatal branch of each of the three
    functions is reached exactly when the mode or policy is none of the
    listed ones and the switch is reached at all.  [ComputePenalties]
    always reaches its switch.  [ScoreGroup] returns (0, false) before its
    switch when the weight is below zero, and [CompareScores] never enters
    its switch when no submission counts and returns the empty standing;
    both do so whatever the mode is. *)
Theorem fatal_branches (tg : TestGroupWithTests.t)
    (results : gmap Z TestResult.t) (s : ScoreContext.t Tx)
    (sub : Submission.t) (subs : list Submission.t) :
  (forall msg,
     ScoreGroup tg results = Panic (UnknownTestScoringMode msg)
     <-> (TestGroupWithTests.Score tg <? 0)%float = false
         /\ exists raw,
            TestGroupWithTests.ScoringMode tg = TestScoringModeOther raw
            /\ msg = "Unknown Scoring Mode: " +:+ raw)
  /\ (forall p,
       ComputePenalties s sub = Panic p
       <-> p = UnknownPenaltyPolicy
           /\ exists raw,
              Problem.PenaltyPolicy (ScoreContext.Problem s)
              = PenaltyPolicyOther raw)
  /\ (forall p,
       CompareScores s subs = Panic p
       <-> p = UnknownScoringMode
           /\ (exists raw,
                 Problem.ScoringMode (ScoreContext.Problem s)
                 = ScoringModeOther raw)
           /\ Exists (fun sub => counting sub = true) subs)
  /\ ((TestGroupWithTests.Score tg <? 0)%float = true ->
      ScoreGroup tg results = Ok (0%float, false))
  /\ (Forall (fun sub => counting sub = false) subs ->
      CompareScores s subs = Ok (no_standing s)).
Proof.
  split; [intros msg; apply ScoreGroup_panics|].
  split; [intros p; apply ComputePenalties_panics|].
  split; [intros p; apply CompareScores_panics|].
  split; [apply ScoreGroup_negative|apply CompareScores_no_counting].
Qed.

End WorkerFacts.

(** C9 as stated fails: a group whose mode is none of Sum, Min and
    Product, and whose weight is below zero, does not abort; it silently
    yields (0, false). *)
Lemma hidden_group_does_not_abort :
  TestGroupWithTests.ScoringMode Ex.hidden_group
  = TestScoringModeOther "AVERAGE"
  /\ ScoreGroup Ex.hidden_group Ex.results = Ok (0%float, false).
Proof. split; reflexivity. Qed.

(** ** Penalties *)

Lemma Minute_pos : 0 < Time.Minute.
Proof. reflexivity. Qed.

(** [ceil_minutes d] is the least number of minutes that covers [d]. *)
Lemma ceil_minutes_bounds (d : Time.Duration) :
  (ceil_minutes d - 1) * Time.Minute < d <= ceil_minutes d * Time.Minute.
Proof.
  unfold ceil_minutes. pose proof Minute_pos as Hm.
  pose proof (Z.div_mod (- d) Time.Minute ltac:(lia)) as Hd.
  pose proof (Z.mod_pos_bound (- d) Time.Minute Hm) as Hr.
  nia.
Qed.

Lemma ceil_minutes_quot (d : Time.Duration) :
  0 <= d -> Z.quot (d + Time.Minute - 1) Time.Minute = ceil_minutes d.
Proof.
  intros Hd. pose proof Minute_pos as Hm.
  pose proof (ceil_minutes_bounds d) as Hb.
  rewrite Z.quot_div_nonneg by lia.
  symmetry.
  apply (Z.div_unique _ _ _ (d + Time.Minute - 1 - Time.Minute * ceil_minutes d));
    lia.
Qed.

Lemma ceil_minutes_nonneg (d : Time.Duration) : 0 <= d -> 0 <= ceil_minutes d.
Proof.
  intros Hd. pose proof Minute_pos. pose proof (ceil_minutes_bounds d). nia.
Qed.

Section PenaltyFacts.

Context {Tx : Type} `{Storage Tx}.

Lemma ICPC_scan_found (subID : Z) (before after : list Submission.t)
    (cur : Submission.t) (id value : Z) :
  Forall (fun x => Submission.ID x <> subID) before ->
  Submission.ID cur = subID ->
  ICPC_scan subID (before ++ cur :: after) id value
  = Int64.mul 20 (id + len before).
Proof.
  intros Hb Hc. revert id.
  induction Hb as [|x before Hx _ IH]; intros id; simpl.
  - rewrite Hc, Z.eqb_refl. unfold len. simpl. now rewrite Z.add_0_r.
  - destruct (Z.eqb_spec subID (Submission.ID x)); [congruence|].
    rewrite IH. unfold len. simpl length. f_equal. lia.
Qed.

Lemma ICPC_scan_absent (subID : Z) (subs : list Submission.t) (id value : Z) :
  Forall (fun x => Submission.ID x <> subID) subs ->
  ICPC_scan subID subs id value = value.
Proof.
  intros Hb. revert id.
  induction Hb as [|x subs Hx _ IH]; intros id; simpl; [reflexivity|].
  destruct (Z.eqb_spec subID (Submission.ID x)); [congruence|]. apply IH.
Qed.

Lemma SubmitTime_add_exact (s : ScoreContext.t Tx) (sub : Submission.t)
    (value : Z) :
  let d := Submission.SubmittedAt sub
           - Contest.StartTime (ScoreContext.Contest s) in
  0 <= d -> d + Time.Minute <= Int64.MaxInt64 ->
  Int64.MinInt64 <= value + ceil_minutes d <= Int64.MaxInt64 ->
  SubmitTime_add s sub value = value + ceil_minutes d.
Proof.
  intros d Hd Hmax Hv. unfold SubmitTime_add.
  pose proof Minute_pos as Hm.
  assert (Hmin : Int64.MinInt64 < 0) by reflexivity.
  rewrite TimeFacts.Sub_exact by (fold d; lia). fold d.
  unfold Int64.add at 2. rewrite Int64Facts.wrap64_id by lia.
  unfold Int64.sub. rewrite Int64Facts.wrap64_id by lia.
  unfold Int64.div. rewrite ceil_minutes_quot by lia.
  pose proof (ceil_minutes_bounds d) as Hb.
  pose proof (ceil_minutes_nonneg d Hd) as Hc.
  rewrite Int64Facts.wrap64_id by nia.
  unfold Int64.add. now rewrite Int64Facts.wrap64_id.
Qed.

(** C1, as the code has it: under the ICPC policy the penalty is 20 times
    the number of submissions stored before the current one (its 0-based
    index in the stored order), plus the minutes from the contest's start
    to the submission, any partial minute rounded up; this for a
    submission that is not sent before the start, and within the range of
    an int64. *)
Theorem ComputePenalties_ICPC (s : ScoreContext.t Tx) (sub cur : Submission.t)
    (before after : list Submission.t) :
  Problem.PenaltyPolicy (ScoreContext.Problem s) = PenaltyPolicyICPC ->
  GetUserProblemSubmissions (ScoreContext.DB s)
    (Submission.UserID (ScoreContext.Sub s))
    (Problem.ID (ScoreContext.Problem s))
  = Success (before ++ cur :: after) ->
  Forall (fun x => Submission.ID x <> Submission.ID sub) before ->
  Submission.ID cur = Submission.ID sub ->
  let d := Submission.SubmittedAt sub
           - Contest.StartTime (ScoreContext.Contest s) in
  0 <= d -> d + Time.Minute <= Int64.MaxInt64 ->
  20 * len before + ceil_minutes d <= Int64.MaxInt64 ->
  (ceil_minutes d - 1) * Time.Minute < d <= ceil_minutes d * Time.Minute
  /\ ComputePenalties s sub
     = Ok (Submission.set_Penalty
             (NullInt64.mk (20 * len before + ceil_minutes d) true) sub).
Proof.
  intros Hp Hsubs Hb Hc d Hd Hmax Hv.
  split; [apply ceil_minutes_bounds|].
  pose proof (ceil_minutes_nonneg d Hd) as Hcm.
  assert (Hl : 0 <= len before) by (unfold len; lia).
  assert (Hmin : Int64.MinInt64 < 0) by reflexivity.
  unfold ComputePenalties. rewrite Hp, Hsubs. simpl.
  rewrite (ICPC_scan_found _ _ _ _ _ _ Hb Hc).
  unfold Int64.mul. rewrite Z.add_0_l, Int64Facts.wrap64_id by lia.
  rewrite SubmitTime_add_exact by (fold d; lia). reflexivity.
Qed.

End PenaltyFacts.

(** C1, on the sample contest: the third stored submission, sent 125
    minutes after the start, gets 20 * 2 + 125 = 165. *)
Lemma ComputePenalties_ICPC_sample :
  ComputePenalties Ex.icpc_ctx (Ex.scored 13 55 125)
  = Ok (Submission.set_Penalty (NullInt64.mk 165 true) (Ex.scored 13 55 125)).
Proof.
  apply (ComputePenalties_ICPC Ex.icpc_ctx (Ex.scored 13 55 125)
           (Ex.scored 13 55 125) [Ex.scored 11 40 10; Ex.scored 12 70 60] []);
    try reflexivity.
  - repeat constructor; discriminate.
  - vm_compute. discriminate.
  - vm_compute. discriminate.
  - vm_compute. discriminate.
Defined.

(** C1 as stated fails: for the third submission, sent 125 minutes after
    the start, the penalty is 165 and not 20 * 3 + 125 = 185. *)
Lemma ICPC_third_submission_is_not_185 :
  ComputePenalties Ex.icpc_ctx (Ex.scored 13 55 125)
  <> Ok (Submission.set_Penalty (NullInt64.mk (20 * 3 + 125) true)
           (Ex.scored 13 55 125)).
Proof. vm_compute. discriminate. Qed.

(** ** Missing tests *)

Lemma MissingTests_inner (results : gmap Z TestResult.t) (l : list Test.t)
    (res : list Test.t) :
  fold_left
    (fun res test =>
       match results !! Test.ID test with
       | Some _ => res
       | None => res ++ [test]
       end)
    l res
  = res ++ filter (fun test => results !! Test.ID test = None) l.
Proof.
  revert res. induction l as [|test l IH]; intros res; simpl.
  - now rewrite app_nil_r.
  - rewrite IH, filter_cons.
    destruct (results !! Test.ID test) as [r|] eqn:E.
    + now rewrite decide_False by discriminate.
    + rewrite decide_True by reflexivity. now rewrite <- app_assoc.
Qed.

Lemma MissingTests_outer (results : gmap Z TestResult.t)
    (tests : list TestGroupWithTests.t) (res : list Test.t) :
  fold_left
    (fun res tg =>
       fold_left
         (fun res test =>
            match results !! Test.ID test with
            | Some _ => res
            | None => res ++ [test]
            end)
         (TestGroupWithTests.Tests tg) res)
    tests res
  = res ++ lacking tests results.
Proof.
  revert res. induction tests as [|tg tests IH]; intros res;
    cbn [fold_left lacking flat_map].
  - now rewrite app_nil_r.
  - rewrite MissingTests_inner, IH. now rewrite <- app_assoc.
Qed.

(** [MissingTests] lists the tests without a result, group after group. *)
Lemma MissingTests_lacking (tests : list TestGroupWithTests.t)
    (results : gmap Z TestResult.t) :
  MissingTests tests results = lacking tests results.
Proof. unfold MissingTests. now rewrite MissingTests_outer. Qed.

Lemma lacking_nonempty (tests : list TestGroupWithTests.t)
    (results : gmap Z TestResult.t) (tg : TestGroupWithTests.t)
    (test : Test.t) :
  tg ∈ tests -> test ∈ TestGroupWithTests.Tests tg ->
  results !! Test.ID test = None ->
  test ∈ lacking tests results.
Proof.
  intros Htg Htest Hnone. unfold lacking.
  apply list_elem_of_In, in_flat_map. exists tg.
  split; [now apply list_elem_of_In|].
  apply list_elem_of_In, list_elem_of_filter. now split.
Qed.

Lemma missing_jobs_fold (subID : Z) (missing : list Test.t) (jobs : list Job) :
  fold_left (fun jobs m => jobs ++ [NewJobRun subID (Test.ID m)]) missing jobs
  = jobs ++ map (fun m => NewJobRun subID (Test.ID m)) missing.
Proof.
  revert jobs. induction missing as [|m missing IH]; intros jobs; simpl.
  - now rewrite app_nil_r.
  - rewrite IH. now rewrite <- app_assoc.
Qed.

Lemma missing_jobs_map (subID : Z) (missing : list Test.t) :
  missing_jobs subID missing
  = map (fun m => NewJobRun subID (Test.ID m)) missing ++ [NewJobScore subID].
Proof. unfold missing_jobs. now rewrite missing_jobs_fold. Qed.

Section ScoreFacts.

Context {Tx : Type} `{Storage Tx}.

(** C3: when a configured test lacks a result, [Score] does one thing: it
    inserts, as one batch, a run job for each test that lacks a result and
    one score job after them (the number of such tests plus one jobs), and
    returns what the insert returns.  The submission, and so its score,
    penalty and verdict, is left as it was, and nothing else is written. *)
Theorem Score_missing_tests (s : ScoreContext.t Tx)
    (testResults : gmap Z TestResult.t) (tests : list TestGroupWithTests.t)
    (tg : TestGroupWithTests.t) (test : Test.t) :
  TestResults s = Ok testResults ->
  GetProblemTests (ScoreContext.DB s) (Problem.ID (ScoreContext.Problem s))
  = Success tests ->
  tg ∈ tests -> test ∈ TestGroupWithTests.Tests tg ->
  testResults !! Test.ID test = None ->
  let subID := Submission.ID (ScoreContext.Sub s) in
  let missing := lacking tests testResults in
  let jobs := map (fun m => NewJobRun subID (Test.ID m)) missing
              ++ [NewJobScore subID] in
  length jobs = S (length missing)
  /\ Score s
     = match BatchInsertJobs (ScoreContext.DB s) jobs with
       | Success db => (Ok tt, ScoreContext.set_DB db s)
       | Failure e => (Err e, s)
       end
  /\ ScoreContext.Sub (snd (Score s)) = ScoreContext.Sub s.
Proof.
  intros Htr Htests Htg Htest Hnone subID missing jobs.
  assert (Hlen : length jobs = S (length missing)).
  { unfold jobs. rewrite length_app, length_map. simpl. lia. }
  assert (Hpos : (0 <? len (MissingTests tests testResults)) = true).
  { rewrite MissingTests_lacking. fold missing. apply Z.ltb_lt.
    pose proof (lacking_nonempty _ _ _ _ Htg Htest Hnone) as Hin.
    fold missing in Hin. unfold len.
    destruct missing; [now apply elem_of_nil in Hin|simpl; lia]. }
  assert (Hscore : Score s
     = match BatchInsertJobs (ScoreContext.DB s) jobs with
       | Success db => (Ok tt, ScoreContext.set_DB db s)
       | Failure e => (Err e, s)
       end).
  { unfold Score, seq, reads. rewrite Htr, Htests. simpl. rewrite Hpos.
    unfold writes. rewrite missing_jobs_map, MissingTests_lacking.
    reflexivity. }
  split; [exact Hlen|]. split; [exact Hscore|].
  rewrite Hscore. destruct (BatchInsertJobs _ _); reflexivity.
Qed.

End ScoreFacts.

(** C3, on the sample store: test 2 has no result, so one run job for it
    and one score job are inserted, and the submission is untouched. *)
Lemma Score_missing_tests_sample :
  Score Ex.missing_ctx
  = (Ok tt,
     ScoreContext.set_DB
       (MemStore.mk [Ex.pending 13 125] [(13, TestResult.mk 1 1.0)]
          [(1, Ex.sum_group)] [NewJobRun 13 2; NewJobScore 13] []
          [MemStore.OpBatchInsertJobs [NewJobRun 13 2; NewJobScore 13]])
       Ex.missing_ctx).
Proof.
  destruct (Score_missing_tests Ex.missing_ctx
              (<[1 := TestResult.mk 1 1.0]> ∅) [Ex.sum_group] Ex.sum_group
              (Test.mk 2))
    as (_ & Hs & _);
    first [exact Hs | reflexivity | repeat constructor].
Defined.

(** C2, on the sample store: the only submission of the user does not
    count, [CompareScores] returns the empty standing, and [Score] hands
    that standing to the same [Write] as any other.  In the in-memory
    store the row of an earlier scoring is replaced by a row of score 0;
    nothing removes it. *)
Theorem Score_writes_the_empty_standing :
  let sub' :=
    Submission.mk 21 "alice" 1 None (NullFloat64.mk 0 true)
      (NullInt64.mk 0 true) VerdictCompileError (30 * Time.Minute) in
  let empty := ProblemResult.mk (NullInt64.mk 0 false) 0 0 false 1 "alice" in
  let s' := snd (Score Ex.compile_error_ctx) in
  fst (Score Ex.compile_error_ctx) = Ok tt
  /\ ScoreContext.Sub s' = sub'
  /\ CompareScores s' [sub'] = Ok empty
  /\ MemStore.problem_results (ScoreContext.DB s') = [empty]
  /\ MemStore.log (ScoreContext.DB s')
     = [MemStore.OpSubmissionWrite sub'; MemStore.OpProblemResultWrite empty].
Proof. vm_compute. repeat split; reflexivity. Qed.

(** ** Selecting the submission that counts *)

Lemma for_range_snoc {A B} (body : A -> B -> outcome A) (l : list B) (b : B)
    (a a' : A) :
  for_range body l a = Ok a' ->
  for_range body (l ++ [b]) a = body a' b.
Proof.
  intros E. rewrite for_range_app, E. simpl. now destruct (body a' b).
Qed.

Lemma count_counting_nonneg (subs : list Submission.t) :
  0 <= count_counting subs.
Proof. unfold count_counting, len. lia. Qed.

Lemma count_counting_snoc (subs : list Submission.t) (x : Submission.t) :
  count_counting (subs ++ [x])
  = count_counting subs + (if counting x then 1 else 0).
Proof.
  unfold count_counting, len. rewrite filter_app, length_app, filter_cons.
  destruct (counting x).
  - rewrite decide_True by reflexivity. simpl. lia.
  - rewrite decide_False by discriminate. simpl. lia.
Qed.

Section SelectionFacts.

Context {Tx : Type} `{Storage Tx}.

Lemma CompareScores_step_Best (s : ScoreContext.t Tx) (ct : float)
    (st : Best.t) (x : Submission.t) :
  Problem.ScoringMode (ScoreContext.Problem s) = ScoringModeBest ->
  CompareScores_step s ct st x
  = Ok (if counting x
        then let st' := Best_case st x (stored_score x) in
             Best.mk (Best.maxScore st') (Best.which st')
                     (Best.counted st' + 1)
        else st).
Proof.
  intros Hm. unfold CompareScores_step. rewrite scoreOf_counting.
  destruct (counting x); simpl; [|reflexivity]. now rewrite Hm.
Qed.

Lemma CompareScores_step_Decay (s : ScoreContext.t Tx) (ct : float)
    (st : Best.t) (x : Submission.t) :
  Problem.ScoringMode (ScoreContext.Problem s) = ScoringModeDecay ->
  CompareScores_step s ct st x
  = Ok (if counting x
        then let st' := Best_case st x
                          (Decay_score s ct x (Best.counted st)) in
             Best.mk (Best.maxScore st') (Best.which st')
                     (Best.counted st' + 1)
        else st).
Proof.
  intros Hm. unfold CompareScores_step. rewrite scoreOf_counting.
  destruct (counting x); simpl; [|reflexivity]. now rewrite Hm.
Qed.

Lemma Best_case_counted (st : Best.t) (x : Submission.t) (score : float) :
  Best.counted (Best_case st x score) = Best.counted st.
Proof.
  unfold Best_case. destruct (Best.which st) as [w|]; [|reflexivity].
  destruct (F64.geb _ _); reflexivity.
Qed.



(** The invariant of the loop under Best: the current best is a counting
    submission of the list, no counting submission before it has a
    greater score, and every counting submission after it has a smaller
    one. *)
Lemma Best_loop_invariant (s : ScoreContext.t Tx) (subs : list Submission.t) :
  Problem.ScoringMode (ScoreContext.Problem s) = ScoringModeBest ->
  Forall (fun x => counting x = true -> is_nan (stored_score x) = false)
         subs ->
  exists st,
    CompareScores_loop s subs = Ok st
    /\ Best.counted st = count_counting subs
    /\ match Best.which st with
       | None => Forall (fun x => counting x = false) subs
       | Some w =>
           exists l1 l2,
             subs = l1 ++ w :: l2
             /\ counting w = true
             /\ Best.maxScore st = stored_score w
             /\ Forall (fun x => counting x = true ->
                                 (stored_score x <=? stored_score w)%float
                                 = true) l1
             /\ Forall (fun x => counting x = true ->
                                 (stored_score x <? stored_score w)%float
                                 = true) l2
       end.
Proof.
  intros Hm. unfold CompareScores_loop.
  induction subs as [|x subs IH] using rev_ind; intros Hnan.
  - eexists. repeat split. simpl. constructor.
  - apply Forall_app in Hnan as [Hnan Hx]. apply Forall_inv in Hx.
    destruct (IH Hnan) as (st & E & Hcnt & Hinv). clear IH.
    rewrite (for_range_snoc _ _ _ _ _ E), CompareScores_step_Best by exact Hm.
    rewrite count_counting_snoc.
    destruct (counting x) eqn:Hc.
    + (* [x] counts *)
      eexists. split; [reflexivity|]. cbn zeta.
      rewrite Best_case_counted. cbn [Best.counted Best.which Best.maxScore].
      split; [lia|].
      unfold Best_case, F64.geb.
      destruct (Best.which st) as [w|] eqn:Ew.
      * destruct Hinv as (l1 & l2 & -> & Hw & Hmax & H1 & H2).
        fold (stored_score w).
        destruct (stored_score w <=? stored_score x)%float eqn:Hle;
          cbn [Best.which Best.maxScore].
        -- (* replaced *)
           exists (l1 ++ w :: l2), []. repeat split; auto.
           apply Forall_app. split; [|constructor].
           ++ eapply Forall_impl; [exact H1|]. simpl. intros y Hy Hcy.
              eapply F64Facts.leb_trans; [exact (Hy Hcy)|exact Hle].
           ++ intros _. exact Hle.
           ++ eapply Forall_impl; [exact H2|]. simpl. intros y Hy Hcy.
              eapply F64Facts.leb_trans; [|exact Hle].
              apply F64Facts.ltb_leb. exact (Hy Hcy).
        -- (* kept *)
           rewrite Ew. exists l1, (l2 ++ [x]).
           rewrite <- app_assoc. repeat split; auto.
           apply Forall_app. split; [exact H2|]. constructor; [|constructor].
           intros _. apply F64Facts.leb_false_ltb; auto.
           apply Forall_app in Hnan as [_ Hnw]. apply Forall_inv in Hnw. auto.
      * cbn [Best.which Best.maxScore].
        exists subs, []. repeat split; auto.
        eapply Forall_impl; [exact Hinv|]. simpl. intros y Hy Hcy. congruence.
    + (* [x] does not count *)
      exists st. split; [reflexivity|]. split; [lia|].
      destruct (Best.which st) as [w|].
      * destruct Hinv as (l1 & l2 & -> & Hw & Hmax & H1 & H2).
        exists l1, (l2 ++ [x]). rewrite <- app_assoc. repeat split; auto.
        apply Forall_app. split; [exact H2|]. constructor; [|constructor].
        congruence.
      * apply Forall_app. split; [exact Hinv|]. now constructor.
Qed.

(** C7: under the Best policy, when at least one submission counts (and
    the stored scores of the counting submissions are numbers), the
    selected submission is a counting submission of the list whose stored
    score no counting submission exceeds, and every counting submission
    after it in the stored order has a strictly smaller score: among
    equal scores the later one is kept.  The standing carries its ID, its
    penalty and its stored score. *)
Theorem CompareScores_Best (s : ScoreContext.t Tx)
    (subs : list Submission.t) :
  Problem.ScoringMode (ScoreContext.Problem s) = ScoringModeBest ->
  Forall (fun x => counting x = true -> is_nan (stored_score x) = false)
         subs ->
  Exists (fun x => counting x = true) subs ->
  exists l1 w l2,
    subs = l1 ++ w :: l2
    /\ counting w = true
    /\ Forall (fun x => counting x = true ->
                        (stored_score x <=? stored_score w)%float = true) l1
    /\ Forall (fun x => counting x = true ->
                        (stored_score x <? stored_score w)%float = true) l2
    /\ CompareScores_loop s subs
       = Ok (Best.mk (stored_score w) (Some w) (count_counting subs))
    /\ CompareScores s subs
       = Ok (ProblemResult.mk
               (NullInt64.mk (Submission.ID w) true)
               (NullInt64.Int64 (Submission.Penalty w))
               (stored_score w)
               (bool_decide (Submission.Verdict w = VerdictAccepted))
               (Problem.ID (ScoreContext.Problem s))
               (Submission.UserID (ScoreContext.Sub s))).
Proof.
  intros Hm Hnan Hex.
  destruct (Best_loop_invariant s subs Hm Hnan) as (st & E & Hcnt & Hinv).
  destruct st as [maxScore which counted]. simpl in *. subst counted.
  destruct which as [w|].
  - destruct Hinv as (l1 & l2 & Hsubs & Hw & -> & H1 & H2).
    exists l1, w, l2. repeat split; auto.
    unfold CompareScores. rewrite E. cbn [bind Best.which Best.maxScore].
    rewrite scoreOf_counting, Hw. reflexivity.
  - exfalso. apply Exists_exists in Hex as (x & Hin & Hc).
    rewrite Forall_forall in Hinv. specialize (Hinv x Hin). congruence.
Qed.

End SelectionFacts.

(** C7, on the sample contest: the stored scores are 40, 70 and 55. *)
Lemma CompareScores_Best_sample :
  exists l1 w l2,
    Ex.three_subs = l1 ++ w :: l2
    /\ counting w = true
    /\ Forall (fun x => counting x = true ->
                        (stored_score x <=? stored_score w)%float = true) l1
    /\ Forall (fun x => counting x = true ->
                        (stored_score x <? stored_score w)%float = true) l2
    /\ CompareScores_loop Ex.best_ctx Ex.three_subs
       = Ok (Best.mk (stored_score w) (Some w) (count_counting Ex.three_subs))
    /\ CompareScores Ex.best_ctx Ex.three_subs
       = Ok (ProblemResult.mk
               (NullInt64.mk (Submission.ID w) true)
               (NullInt64.Int64 (Submission.Penalty w))
               (stored_score w)
               (bool_decide (Submission.Verdict w = VerdictAccepted))
               1 "alice").
Proof.
  apply (CompareScores_Best Ex.best_ctx Ex.three_subs).
  - reflexivity.
  - repeat constructor.
  - constructor. reflexivity.
Defined.

(** The selection of the design document's example: scores 40, 70 and 55
    under Best select the submission that scored 70. *)
Lemma CompareScores_Best_selects_70 :
  CompareScores Ex.best_ctx Ex.three_subs
  = Ok (ProblemResult.mk (NullInt64.mk 12 true) 0 70 false 1 "alice").
Proof. reflexivity. Qed.

(** Among equal scores the later submission is kept. *)
Lemma CompareScores_Best_tie :
  CompareScores Ex.best_ctx
    [Ex.scored 11 70 10; Ex.scored 12 70 60; Ex.scored 13 55 125]
  = Ok (ProblemResult.mk (NullInt64.mk 12 true) 0 70 false 1 "alice").
Proof. reflexivity. Qed.

(** ** The embedding at work on the design document's examples *)

Example of_int_samples :
  F64.of_int 0 = 0%float
  /\ F64.of_int (-3) = (-3)%float
  /\ F64.of_int (2 ^ 53 + 1) = 9007199254740992%float
  /\ F64.of_int Int64.MinInt64 = (-9223372036854775808)%float
  /\ F64.of_int Int64.MaxInt64 = 9223372036854775808%float.
Proof. repeat split; reflexivity. Qed.

Example Min_samples :
  F64.Min 0.3 1 = 0.3%float
  /\ F64.Min 0.3 (-2) = (-2)%float
  /\ F64.Min 0.3 nan = nan
  /\ F64.Min 0.3 neg_infinity = neg_infinity.
Proof. repeat split; reflexivity. Qed.

(** Product mode: weight 20, results 0.5 and 0.8, contributes 8.0. *)
Example ScoreGroup_Product_sample :
  ScoreGroup Ex.product_group Ex.product_results = Ok (8%float, true).
Proof. reflexivity. Qed.

(** A test without a result makes [ScoreGroup] dereference nil. *)
Example ScoreGroup_nil_result :
  ScoreGroup Ex.product_group Ex.results = Panic NilDereference.
Proof. reflexivity. Qed.

(** A partial minute is rounded up; a whole one is kept. *)
Example SubmitTime_samples :
  SubmitTime_add Ex.icpc_ctx (Ex.scored 13 55 125) 0 = 125
  /\ SubmitTime_add Ex.icpc_ctx
       (Submission.set_Verdict VerdictScored
          (Submission.mk 13 "alice" 1 (Some []) (NullFloat64.mk 55 true)
             (NullInt64.mk 0 true) VerdictScored (125 * Time.Minute + 1)))
       0 = 126.
Proof. split; reflexivity. Qed.

(** Once keeps the first counting submission, Last the last one. *)
Example CompareScores_Once_sample :
  CompareScores
    (Ex.ctx (Ex.store Ex.three_subs [] [] []) (Ex.scored 13 55 125)
            PenaltyPolicyNone ScoringModeOnce)
    (Ex.uncompiled 10 5 :: Ex.three_subs)
  = Ok (ProblemResult.mk (NullInt64.mk 11 true) 0 40 false 1 "alice").
Proof. reflexivity. Qed.

Example CompareScores_Last_sample :
  CompareScores
    (Ex.ctx (Ex.store Ex.three_subs [] [] []) (Ex.scored 13 55 125)
            PenaltyPolicyNone ScoringModeLast)
    (Ex.three_subs ++ [Ex.uncompiled 14 130])
  = Ok (ProblemResult.mk (NullInt64.mk 13 true) 0 55 false 1 "alice").
Proof. reflexivity. Qed.

(** * More of the worker

    ** float64: NaN *)

Lemma mul_nan_r (w : float) : (w * nan)%float = nan.
Proof.
  apply Prim2SF_inj. rewrite mul_spec.
  change (Prim2SF nan) with S754_nan.
  now destruct (Prim2SF w).
Qed.

Lemma eqb_nan_l (x y : float) : is_nan x = true -> (x =? y)%float = false.
Proof.
  rewrite F64Facts.is_nan_spec, FloatAxioms.eqb_spec. intros ->. reflexivity.
Qed.

(** ** More on scoring a group *)

Lemma ScoreGroup_Product_eq (tg : TestGroupWithTests.t)
    (results : gmap Z TestResult.t) :
  TestGroupWithTests.ScoringMode tg = TestScoringModeProduct ->
  (TestGroupWithTests.Score tg <? 0)%float = false ->
  all_present results (TestGroupWithTests.Tests tg) ->
  ScoreGroup tg results
  = Ok ((TestGroupWithTests.Score tg
         * product_scores (group_scores results (TestGroupWithTests.Tests tg)))%float,
        true).
Proof.
  intros Hm Hw Hall. unfold ScoreGroup. rewrite Hw, Hm.
  rewrite (for_range_scores PrimFloat.mul results _ _ Hall). reflexivity.
Qed.

Lemma ScoreGroup_Sum_eq (tg : TestGroupWithTests.t)
    (results : gmap Z TestResult.t) :
  TestGroupWithTests.ScoringMode tg = TestScoringModeSum ->
  (TestGroupWithTests.Score tg <? 0)%float = false ->
  all_present results (TestGroupWithTests.Tests tg) ->
  ScoreGroup tg results
  = Ok ((TestGroupWithTests.Score tg
         * (sum_scores (group_scores results (TestGroupWithTests.Tests tg))
            / F64.of_int (len (TestGroupWithTests.Tests tg))))%float,
        true).
Proof.
  intros Hm Hw Hall. unfold ScoreGroup. rewrite Hw, Hm.
  rewrite (for_range_scores PrimFloat.add results _ _ Hall). reflexivity.
Qed.

(** X1: a group in Product mode whose weight is not negative, with a
    result for every test, counts and contributes weight * (the product
    of the scores of its tests, from 1.0); without tests it contributes
    its weight. *)
Theorem ScoreGroup_Product (tg : TestGroupWithTests.t)
    (results : gmap Z TestResult.t) :
  TestGroupWithTests.ScoringMode tg = TestScoringModeProduct ->
  (0 <=? TestGroupWithTests.Score tg)%float = true ->
  all_present results (TestGroupWithTests.Tests tg) ->
  ScoreGroup tg results
  = Ok ((TestGroupWithTests.Score tg
         * product_scores (group_scores results (TestGroupWithTests.Tests tg)))%float,
        true)
  /\ (TestGroupWithTests.Tests tg = [] ->
      ScoreGroup tg results = Ok (TestGroupWithTests.Score tg, true)).
Proof.
  intros Hm Hw Hall.
  pose proof (ScoreGroup_Product_eq tg results Hm
                (F64Facts.leb_ltb_false _ _ Hw) Hall) as E.
  split; [exact E|]. intros Hnil. rewrite E, Hnil.
  unfold group_scores, product_scores. simpl.
  now rewrite F64Facts.mul_1_r.
Qed.

(** X1, on the sample group: weight 20, results 0.5 and 0.8, contributes
    8.0. *)
Lemma ScoreGroup_Product_witness :
  ScoreGroup Ex.product_group Ex.product_results = Ok (8%float, true).
Proof.
  apply (ScoreGroup_Product Ex.product_group Ex.product_results);
    try reflexivity.
  repeat constructor; eexists; reflexivity.
Defined.

(** X2: a group in Sum mode without tests, whose weight is not negative,
    counts and contributes NaN (the sum 0.0 is divided by 0 tests),
    whatever its weight and the results are. *)
Theorem ScoreGroup_Sum_no_tests (tg : TestGroupWithTests.t)
    (results : gmap Z TestResult.t) :
  TestGroupWithTests.ScoringMode tg = TestScoringModeSum ->
  (0 <=? TestGroupWithTests.Score tg)%float = true ->
  TestGroupWithTests.Tests tg = [] ->
  ScoreGroup tg results = Ok (nan, true).
Proof.
  intros Hm Hw Hnil.
  rewrite ScoreGroup_Sum_eq; auto using F64Facts.leb_ltb_false.
  - rewrite Hnil. unfold group_scores, sum_scores, len. simpl.
    change (0 / F64.of_int 0)%float with nan. now rewrite mul_nan_r.
  - rewrite Hnil. constructor.
Qed.

Lemma ScoreGroup_Sum_no_tests_witness :
  ScoreGroup Ex2.empty_group Ex.results = Ok (nan, true).
Proof.
  apply (ScoreGroup_Sum_no_tests Ex2.empty_group Ex.results); reflexivity.
Defined.

(** A loop that reads one result per test meets the nil pointer exactly
    when some test has no result. *)
Lemma for_range_scores_nil {A} (f : A -> float -> A)
    (results : gmap Z TestResult.t) (tests : list Test.t) (a : A) :
  for_range (fun a test =>
               let! result := deref (results !! Test.ID test) in
               Ok (f a (TestResult.Score result)))
            tests a = Panic NilDereference
  <-> ~ all_present results tests.
Proof.
  split.
  - intros Hp Hall. rewrite (for_range_scores f results tests a Hall) in Hp.
    discriminate.
  - revert a. induction tests as [|test tests IH]; intros a Hn.
    + destruct Hn. constructor.
    + simpl. destruct (results !! Test.ID test) as [r|] eqn:E; simpl; [|reflexivity].
      apply IH. intros Hall. apply Hn. constructor; [now exists r|exact Hall].
Qed.

(** On a map of results, [ScoreGroup] meets the nil pointer exactly when
    the weight of the group is not below zero, its mode is Sum, Min or
    Product, and one of its tests has no result; and it never returns an
    error. *)
Lemma ScoreGroup_nil_iff (tg : TestGroupWithTests.t)
    (results : gmap Z TestResult.t) :
  (ScoreGroup tg results = Panic NilDereference
   <-> (TestGroupWithTests.Score tg <? 0)%float = false
       /\ (forall raw,
             TestGroupWithTests.ScoringMode tg <> TestScoringModeOther raw)
       /\ ~ all_present results (TestGroupWithTests.Tests tg))
  /\ (forall e, ScoreGroup tg results <> Err e).
Proof.
  unfold ScoreGroup. split; [split|].
  - intros Hp.
    destruct (TestGroupWithTests.Score tg <? 0)%float; [discriminate|].
    split; [reflexivity|].
    destruct (TestGroupWithTests.ScoringMode tg) as [| | |raw];
      try discriminate; (split; [discriminate|]).
    + apply (for_range_scores_nil PrimFloat.add results _ 0%float).
      destruct (for_range _ _ _) as [v|e|[]]; simpl in Hp; congruence.
    + apply (for_range_scores_nil
               (fun r x => if (r <? x)%float then x else r) results _ 1%float).
      destruct (for_range _ _ _) as [v|e|[]]; simpl in Hp; congruence.
    + apply (for_range_scores_nil PrimFloat.mul results _ 1%float).
      destruct (for_range _ _ _) as [v|e|[]]; simpl in Hp; congruence.
  - intros (Hw & Hm & Hn). rewrite Hw.
    destruct (TestGroupWithTests.ScoringMode tg) as [| | |raw];
      [| | |now destruct (Hm raw)].
    + apply (for_range_scores_nil PrimFloat.add results _ 0%float) in Hn.
      now rewrite Hn.
    + apply (for_range_scores_nil
               (fun r x => if (r <? x)%float then x else r) results _ 1%float)
        in Hn.
      now rewrite Hn.
    + apply (for_range_scores_nil PrimFloat.mul results _ 1%float) in Hn.
      now rewrite Hn.
  - intros e He.
    destruct (TestGroupWithTests.Score tg <? 0)%float; [discriminate|].
    destruct (TestGroupWithTests.ScoringMode tg) as [| | |raw];
      [| | |discriminate].
    + destruct (for_range_scores_outcome PrimFloat.add results
                  (TestGroupWithTests.Tests tg) 0%float) as [[v E]|E];
        rewrite E in He; discriminate.
    + destruct (for_range_scores_outcome
                  (fun r x => if (r <? x)%float then x else r) results
                  (TestGroupWithTests.Tests tg) 1%float) as [[v E]|E];
        rewrite E in He; discriminate.
    + destruct (for_range_scores_outcome PrimFloat.mul results
                  (TestGroupWithTests.Tests tg) 1%float) as [[v E]|E];
        rewrite E in He; discriminate.
Qed.

(** ** More on missing tests *)

(** X4: a test is reported missing exactly when it is a test of one of
    the groups and has no result. *)
Theorem MissingTests_elem (tests : list TestGroupWithTests.t)
    (results : gmap Z TestResult.t) (test : Test.t) :
  test ∈ MissingTests tests results
  <-> exists tg, tg ∈ tests /\ test ∈ TestGroupWithTests.Tests tg
                 /\ results !! Test.ID test = None.
Proof.
  rewrite MissingTests_lacking. unfold lacking.
  rewrite list_elem_of_In, in_flat_map. split.
  - intros (tg & Htg & Hin). exists tg.
    apply list_elem_of_In, list_elem_of_filter in Hin as [Hnone Hin].
    repeat split; auto. now apply list_elem_of_In.
  - intros (tg & Htg & Hin & Hnone). exists tg.
    split; [now apply list_elem_of_In|].
    apply list_elem_of_In, list_elem_of_filter. now split.
Qed.

Lemma lacking_nil (tests : list TestGroupWithTests.t)
    (results : gmap Z TestResult.t) :
  lacking tests results = []
  <-> Forall (fun tg => all_present results (TestGroupWithTests.Tests tg))
             tests.
Proof.
  unfold lacking. induction tests as [|tg tests IH]; simpl.
  - split; [constructor|reflexivity].
  - rewrite Forall_cons, <- IH. clear IH. split.
    + intros E. apply app_eq_nil in E as [E1 E2]. split; [|exact E2].
      unfold all_present. apply Forall_forall. intros test Hin.
      destruct (results !! Test.ID test) as [r|] eqn:Er; [now exists r|].
      assert (Hf : test ∈ filter (fun test => results !! Test.ID test = None)
                                 (TestGroupWithTests.Tests tg))
        by (apply list_elem_of_filter; now split).
      rewrite E1 in Hf. now apply elem_of_nil in Hf.
    + intros [Hall E2]. rewrite E2, app_nil_r.
      induction Hall as [|test l [r Hr] _ IHl]; [reflexivity|].
      rewrite filter_cons, decide_False by congruence. exact IHl.
Qed.

(** X5: nothing is missing exactly when every test of every group has a
    result. *)
Theorem MissingTests_nil (tests : list TestGroupWithTests.t)
    (results : gmap Z TestResult.t) :
  MissingTests tests results = []
  <-> Forall (fun tg => all_present results (TestGroupWithTests.Tests tg))
             tests.
Proof. rewrite MissingTests_lacking. apply lacking_nil. Qed.

Lemma filter_lacking_insert (results : gmap Z TestResult.t) (k : Z)
    (r : TestResult.t) (l : list Test.t) :
  filter (fun test => <[k := r]> results !! Test.ID test = None) l
  = filter (fun test => Test.ID test <> k)
           (filter (fun test => results !! Test.ID test = None) l).
Proof.
  induction l as [|test l IH]; [reflexivity|].
  rewrite !filter_cons. destruct (decide (Test.ID test = k)) as [E|E].
  - rewrite decide_False by (rewrite <- E, lookup_insert_eq; discriminate).
    destruct (decide (results !! Test.ID test = None));
      [rewrite filter_cons, decide_False by tauto|]; exact IH.
  - rewrite lookup_insert_ne by congruence.
    destruct (decide (results !! Test.ID test = None)).
    + rewrite filter_cons, decide_True by assumption. now f_equal.
    + exact IH.
Qed.

(** X6: when a result arrives for test [k], the tests with that ID leave
    the list of missing tests, and the others stay, in their order. *)
Theorem MissingTests_insert (tests : list TestGroupWithTests.t)
    (results : gmap Z TestResult.t) (k : Z) (r : TestResult.t) :
  MissingTests tests (<[k := r]> results)
  = filter (fun test => Test.ID test <> k) (MissingTests tests results).
Proof.
  rewrite !MissingTests_lacking. unfold lacking.
  induction tests as [|tg tests IH]; [reflexivity|]. simpl.
  now rewrite filter_app, IH, filter_lacking_insert.
Qed.

(** ** The map of results *)

Lemma results_map_lookup (trs : list TestResult.t)
    (m : gmap Z TestResult.t) (k : Z) :
  fold_left (fun res tr => <[TestResult.TestID tr := tr]> res) trs m !! k
  = match last (filter (fun tr => TestResult.TestID tr = k) trs) with
    | Some tr => Some tr
    | None => m !! k
    end.
Proof.
  revert m. induction trs as [|tr trs IH]; intros m; [reflexivity|].
  simpl. rewrite IH, filter_cons.
  destruct (decide (TestResult.TestID tr = k)) as [E|E].
  - destruct (filter _ trs) as [|x l] eqn:Ef.
    + simpl. now rewrite <- E, lookup_insert_eq.
    + rewrite (last_cons tr), !(last_cons x). now destruct (last l).
  - destruct (last (filter _ trs)); [reflexivity|].
    now rewrite lookup_insert_ne.
Qed.

Section ResultsFacts.

Context {Tx : Type} `{Storage Tx}.

(** X7: [TestResults] fails exactly as the read of the rows fails;
    otherwise the entry of a test is the last row read for that test
    (a later row replaces an earlier one), and a test without a row has no
    entry. *)
Theorem TestResults_lookup (s : ScoreContext.t Tx) :
  match GetSubmissionTestResults (ScoreContext.DB s)
          (Submission.ID (ScoreContext.Sub s)) with
  | Failure e => TestResults s = Err e
  | Success trs =>
      exists m, TestResults s = Ok m
                /\ forall k, m !! k
                             = last (filter (fun tr => TestResult.TestID tr = k)
                                            trs)
  end.
Proof.
  unfold TestResults.
  destruct (GetSubmissionTestResults _ _) as [trs|e]; simpl; [|reflexivity].
  eexists. split; [reflexivity|]. intros k.
  rewrite results_map_lookup, lookup_empty.
  now destruct (last _).
Qed.

End ResultsFacts.

(** ** More on penalties *)

Lemma ceil_minutes_le (d : Time.Duration) : 0 <= d -> ceil_minutes d <= d.
Proof.
  intros Hd. pose proof (ceil_minutes_bounds d) as Hb.
  pose proof (ceil_minutes_nonneg d Hd) as Hc.
  assert (HM : Time.Minute = 60000000000) by reflexivity.
  rewrite HM in Hb. lia.
Qed.

Section MorePenaltyFacts.

Context {Tx : Type} `{Storage Tx}.

Lemma ComputePenalties_ok (s : ScoreContext.t Tx) (sub sub' : Submission.t) :
  ComputePenalties s sub = Ok sub' ->
  exists value, sub' = Submission.set_Penalty (NullInt64.mk value true) sub.
Proof.
  unfold ComputePenalties. intros E.
  destruct (Problem.PenaltyPolicy (ScoreContext.Problem s)) as [| | |raw];
    simpl in E; try discriminate.
  - injection E as <-. now eexists.
  - destruct (GetUserProblemSubmissions _ _ _) as [subs|e]; simpl in E;
      [|discriminate].
    injection E as <-. now eexists.
  - injection E as <-. now eexists.
Qed.

(** X8: when [ComputePenalties] succeeds, the submission it returns is
    the one it was given with a valid penalty in place of the old one:
    score, verdict and all other fields are untouched.  Under the policy
    None that penalty is 0. *)
Theorem ComputePenalties_sets_penalty_only (s : ScoreContext.t Tx)
    (sub sub' : Submission.t) :
  ComputePenalties s sub = Ok sub' ->
  exists value,
    sub' = Submission.set_Penalty (NullInt64.mk value true) sub
    /\ (Problem.PenaltyPolicy (ScoreContext.Problem s) = PenaltyPolicyNone ->
        value = 0).
Proof.
  unfold ComputePenalties. intros E.
  destruct (Problem.PenaltyPolicy (ScoreContext.Problem s)) as [| | |raw];
    simpl in E; try discriminate.
  - injection E as <-. eexists. split; [reflexivity|reflexivity].
  - destruct (GetUserProblemSubmissions _ _ _) as [subs|e]; simpl in E;
      [|discriminate].
    injection E as <-. eexists. split; [reflexivity|discriminate].
  - injection E as <-. eexists. split; [reflexivity|discriminate].
Qed.

(** X9: [ComputePenalties] returns an error exactly when the policy is
    ICPC and the read of the user's submissions fails, and the error is
    that of the read; the other policies read nothing. *)
Theorem ComputePenalties_errors (s : ScoreContext.t Tx)
    (sub : Submission.t) (e : error) :
  ComputePenalties s sub = Err e
  <-> Problem.PenaltyPolicy (ScoreContext.Problem s) = PenaltyPolicyICPC
      /\ GetUserProblemSubmissions (ScoreContext.DB s)
           (Submission.UserID (ScoreContext.Sub s))
           (Problem.ID (ScoreContext.Problem s))
         = Failure e.
Proof.
  unfold ComputePenalties. split.
  - intros E.
    destruct (Problem.PenaltyPolicy (ScoreContext.Problem s)) as [| | |raw];
      simpl in E; try discriminate.
    destruct (GetUserProblemSubmissions _ _ _) as [subs|e']; simpl in E;
      [discriminate|].
    injection E as ->. now split.
  - intros [-> ->]. reflexivity.
Qed.

(** X10: under the policy SubmitTime, and under ICPC when none of the
    rows read has the ID of the submission, the penalty is the time alone:
    the minutes from the contest's start to the submission, any partial
    minute rounded up (for a submission not sent before the start). *)
Theorem ComputePenalties_time_only (s : ScoreContext.t Tx)
    (sub : Submission.t) :
  Problem.PenaltyPolicy (ScoreContext.Problem s) = PenaltyPolicySubmitTime
  \/ (Problem.PenaltyPolicy (ScoreContext.Problem s) = PenaltyPolicyICPC
      /\ exists subs,
           GetUserProblemSubmissions (ScoreContext.DB s)
             (Submission.UserID (ScoreContext.Sub s))
             (Problem.ID (ScoreContext.Problem s))
           = Success subs
           /\ Forall (fun x => Submission.ID x <> Submission.ID sub) subs) ->
  let d := Submission.SubmittedAt sub
           - Contest.StartTime (ScoreContext.Contest s) in
  0 <= d -> d + Time.Minute <= Int64.MaxInt64 ->
  ComputePenalties s sub
  = Ok (Submission.set_Penalty (NullInt64.mk (ceil_minutes d) true) sub).
Proof.
  intros Hp d Hd Hmax.
  pose proof (ceil_minutes_nonneg d Hd) as Hc.
  pose proof (ceil_minutes_le d Hd) as Hle.
  pose proof Minute_pos as HM.
  assert (Hmin : Int64.MinInt64 < 0) by reflexivity.
  assert (Ht : SubmitTime_add s sub 0 = ceil_minutes d).
  { rewrite SubmitTime_add_exact by (fold d; lia). apply Z.add_0_l. }
  unfold ComputePenalties.
  destruct Hp as [->|[-> (subs & -> & Habs)]]; simpl.
  - now rewrite Ht.
  - now rewrite ICPC_scan_absent, Ht.
Qed.

(** X11: under the policy SubmitTime a later submission never gets a
    smaller penalty than an earlier one, also before the contest's start
    (as long as the durations fit an int64). *)
Theorem SubmitTime_penalty_monotone (s : ScoreContext.t Tx)
    (sub1 sub2 : Submission.t) :
  Problem.PenaltyPolicy (ScoreContext.Problem s) = PenaltyPolicySubmitTime ->
  let start := Contest.StartTime (ScoreContext.Contest s) in
  Int64.MinInt64 <= Submission.SubmittedAt sub1 - start ->
  Submission.SubmittedAt sub1 <= Submission.SubmittedAt sub2 ->
  Submission.SubmittedAt sub2 - start + Time.Minute <= Int64.MaxInt64 ->
  exists p1 p2,
    ComputePenalties s sub1
    = Ok (Submission.set_Penalty (NullInt64.mk p1 true) sub1)
    /\ ComputePenalties s sub2
       = Ok (Submission.set_Penalty (NullInt64.mk p2 true) sub2)
    /\ p1 <= p2.
Proof.
  intros Hp start H1 H12 H2.
  assert (HM : 60000000000 <= Time.Minute <= 60000000000) by easy.
  assert (Hmin : Int64.MinInt64 = -9223372036854775808) by reflexivity.
  assert (Hmax : Int64.MaxInt64 = 9223372036854775807) by reflexivity.
  assert (Hq : forall sub,
             Int64.MinInt64 <= Submission.SubmittedAt sub - start ->
             Submission.SubmittedAt sub - start + Time.Minute
             <= Int64.MaxInt64 ->
             SubmitTime_add s sub 0
             = Z.quot (Submission.SubmittedAt sub - start + Time.Minute - 1)
                      Time.Minute).
  { intros sub Ha Hb. unfold SubmitTime_add. fold start.
    rewrite TimeFacts.Sub_exact by lia.
    unfold Int64.add at 2.
    rewrite (Int64Facts.wrap64_id
               (Submission.SubmittedAt sub - start + Time.Minute)) by lia.
    unfold Int64.sub.
    rewrite (Int64Facts.wrap64_id
               (Submission.SubmittedAt sub - start + Time.Minute - 1)) by lia.
    pose proof (Z.quot_le_mono Int64.MinInt64
                  (Submission.SubmittedAt sub - start + Time.Minute - 1)
                  Time.Minute ltac:(lia) ltac:(lia)) as Hlo.
    pose proof (Z.quot_le_mono
                  (Submission.SubmittedAt sub - start + Time.Minute - 1)
                  Int64.MaxInt64 Time.Minute ltac:(lia) ltac:(lia)) as Hhi.
    change (Z.quot Int64.MinInt64 Time.Minute) with (-153722867) in Hlo.
    change (Z.quot Int64.MaxInt64 Time.Minute) with 153722867 in Hhi.
    unfold Int64.div.
    rewrite (Int64Facts.wrap64_id
               (Z.quot (Submission.SubmittedAt sub - start + Time.Minute - 1)
                       Time.Minute)) by lia.
    unfold Int64.add. rewrite Z.add_0_l. apply Int64Facts.wrap64_id. lia. }
  exists (SubmitTime_add s sub1 0), (SubmitTime_add s sub2 0).
  unfold ComputePenalties. rewrite Hp. simpl. repeat split.
  rewrite !Hq by lia. apply Z.quot_le_mono; lia.
Qed.

End MorePenaltyFacts.

Lemma ComputePenalties_time_only_witness :
  ComputePenalties
    (Ex.ctx (Ex.store Ex.three_subs [] [] []) (Ex.scored 13 55 125)
            PenaltyPolicyICPC ScoringModeBest)
    (Ex.scored 99 55 125)
  = Ok (Submission.set_Penalty (NullInt64.mk 125 true) (Ex.scored 99 55 125)).
Proof.
  apply (ComputePenalties_time_only
           (Ex.ctx (Ex.store Ex.three_subs [] [] []) (Ex.scored 13 55 125)
                   PenaltyPolicyICPC ScoringModeBest)
           (Ex.scored 99 55 125)).
  - right. split; [reflexivity|]. exists Ex.three_subs.
    split; [reflexivity|]. repeat constructor; discriminate.
  - vm_compute. discriminate.
  - vm_compute. discriminate.
Defined.

Lemma ComputePenalties_sets_penalty_only_witness :
  exists value,
    Submission.set_Penalty (NullInt64.mk 165 true) (Ex.scored 13 55 125)
    = Submission.set_Penalty (NullInt64.mk value true) (Ex.scored 13 55 125)
    /\ (Problem.PenaltyPolicy (ScoreContext.Problem Ex.icpc_ctx)
        = PenaltyPolicyNone -> value = 0).
Proof.
  apply (ComputePenalties_sets_penalty_only Ex.icpc_ctx
           (Ex.scored 13 55 125)).
  reflexivity.
Defined.

Lemma SubmitTime_penalty_monotone_witness :
  exists p1 p2,
    ComputePenalties
      (Ex.ctx (Ex.store Ex.three_subs [] [] []) (Ex.scored 13 55 125)
              PenaltyPolicySubmitTime ScoringModeBest)
      (Ex.scored 12 70 (-3))
    = Ok (Submission.set_Penalty (NullInt64.mk p1 true) (Ex.scored 12 70 (-3)))
    /\ ComputePenalties
         (Ex.ctx (Ex.store Ex.three_subs [] [] []) (Ex.scored 13 55 125)
                 PenaltyPolicySubmitTime ScoringModeBest)
         (Ex.scored 13 55 125)
       = Ok (Submission.set_Penalty (NullInt64.mk p2 true)
               (Ex.scored 13 55 125))
    /\ p1 <= p2.
Proof.
  apply (SubmitTime_penalty_monotone
           (Ex.ctx (Ex.store Ex.three_subs [] [] []) (Ex.scored 13 55 125)
                   PenaltyPolicySubmitTime ScoringModeBest)
           (Ex.scored 12 70 (-3)) (Ex.scored 13 55 125)).
  - reflexivity.
  - vm_compute. discriminate.
  - vm_compute. discriminate.
  - vm_compute. discriminate.
Defined.

(** ** More on selecting the submission that counts *)

Lemma Min_capped (y : float) :
  is_nan (F64.Min 0.3 y) = true \/ (F64.Min 0.3 y <=? 0.3)%float = true.
Proof.
  unfold F64.Min.
  change (is_infinity 0.3 && get_sign 0.3) with false.
  change (is_nan 0.3) with false.
  change (0.3 =? 0)%float with false.
  cbn [orb andb].
  destruct (is_infinity y && get_sign y); [right; reflexivity|].
  destruct (is_nan y) eqn:Hn; [left; reflexivity|].
  right. destruct (0.3 <? y)%float eqn:E; [reflexivity|].
  now apply F64Facts.ltb_false_leb.
Qed.

Section MoreSelectionFacts.

Context {Tx : Type} `{Storage Tx}.

(** A turn of the loop keeps the current best and its score, or puts the
    submission at hand, which counts, in its place. *)
Lemma CompareScores_step_which (s : ScoreContext.t Tx) (ct : float)
    (st st' : Best.t) (x : Submission.t) :
  CompareScores_step s ct st x = Ok st' ->
  (Best.which st' = Best.which st /\ Best.maxScore st' = Best.maxScore st)
  \/ (Best.which st' = Some x /\ counting x = true).
Proof.
  unfold CompareScores_step. rewrite scoreOf_counting.
  destruct (counting x); simpl; [|intros [= <-]; now left].
  destruct (Problem.ScoringMode (ScoreContext.Problem s)) as [| | | |raw];
    simpl; try discriminate.
  - destruct (Best.which st) as [w|] eqn:Ew; simpl; intros [= <-]; simpl;
      [left|right]; auto.
  - intros [= <-]. simpl. now right.
  - unfold Best_case. destruct (Best.which st) as [w|] eqn:Ew;
      [destruct (F64.geb _ _)|]; intros [= <-]; simpl; auto.
  - unfold Best_case. destruct (Best.which st) as [w|] eqn:Ew;
      [destruct (F64.geb _ _)|]; intros [= <-]; simpl; auto.
Qed.

(** A turn on a counting submission leaves a current best; a current
    best is never dropped. *)
Lemma CompareScores_step_some (s : ScoreContext.t Tx) (ct : float)
    (st st' : Best.t) (x : Submission.t) :
  CompareScores_step s ct st x = Ok st' ->
  counting x = true \/ Best.which st <> None ->
  Best.which st' <> None.
Proof.
  intros E Hor.
  destruct (CompareScores_step_which s ct st st' x E) as [[Ew _]|[Ew _]];
    [|congruence].
  rewrite Ew. destruct Hor as [Hc|Hn]; [|exact Hn].
  revert E Ew. unfold CompareScores_step. rewrite scoreOf_counting, Hc. simpl.
  destruct (Problem.ScoringMode (ScoreContext.Problem s)) as [| | | |raw];
    simpl; try discriminate.
  - destruct (Best.which st) as [w|]; simpl; intros [= <-]; simpl; congruence.
  - intros [= <-]. simpl. congruence.
  - unfold Best_case. destruct (Best.which st) as [w|];
      [destruct (F64.geb _ _)|]; intros [= <-]; simpl; congruence.
  - unfold Best_case. destruct (Best.which st) as [w|];
      [destruct (F64.geb _ _)|]; intros [= <-]; simpl; congruence.
Qed.

Lemma for_range_step_which (s : ScoreContext.t Tx) (ct : float)
    (subs : list Submission.t) (st st' : Best.t) :
  for_range (CompareScores_step s ct) subs st = Ok st' ->
  (Best.which st' = Best.which st /\ Best.maxScore st' = Best.maxScore st)
  \/ (exists w, Best.which st' = Some w /\ w ∈ subs /\ counting w = true).
Proof.
  revert st. induction subs as [|x subs IH]; intros st; simpl.
  - intros [= <-]. now left.
  - destruct (CompareScores_step s ct st x) as [st1| |] eqn:E1; simpl;
      try discriminate.
    intros E. destruct (IH st1 E) as [[Ew Em]|(w & Ew & Hin & Hc)].
    + destruct (CompareScores_step_which s ct st st1 x E1)
        as [[Ew1 Em1]|[Ew1 Hc1]].
      * left. split; congruence.
      * right. exists x. split; [congruence|]. split; [constructor|exact Hc1].
    + right. exists w. split; [exact Ew|]. split; [now constructor|exact Hc].
Qed.

Lemma for_range_step_some (s : ScoreContext.t Tx) (ct : float)
    (subs : list Submission.t) (st st' : Best.t) :
  for_range (CompareScores_step s ct) subs st = Ok st' ->
  Exists (fun x => counting x = true) subs \/ Best.which st <> None ->
  Best.which st' <> None.
Proof.
  revert st. induction subs as [|x subs IH]; intros st; simpl.
  - intros [= <-] [Hex|Hn]; [inversion Hex|exact Hn].
  - destruct (CompareScores_step s ct st x) as [st1| |] eqn:E1; simpl;
      try discriminate.
    intros E Hor. apply (IH st1 E).
    destruct Hor as [Hex|Hn].
    + inversion Hex; subst.
      * right. apply (CompareScores_step_some s ct st st1 x E1). now left.
      * now left.
    + right. apply (CompareScores_step_some s ct st st1 x E1). now right.
Qed.

(** X12: whatever the policy, a standing that [CompareScores] returns
    carries the problem and the user of the context, and either no
    submission of the list counts and it is the empty standing, or it
    names a counting submission of the list and carries that submission's
    own penalty and whether its verdict is "Accepted". *)
Theorem CompareScores_standing (s : ScoreContext.t Tx)
    (subs : list Submission.t) (pr : ProblemResult.t) :
  CompareScores s subs = Ok pr ->
  ProblemResult.ProblemID pr = Problem.ID (ScoreContext.Problem s)
  /\ ProblemResult.UserID pr = Submission.UserID (ScoreContext.Sub s)
  /\ ((Forall (fun x => counting x = false) subs /\ pr = no_standing s)
      \/ exists w,
           w ∈ subs /\ counting w = true
           /\ ProblemResult.BestSubmissionID pr
              = NullInt64.mk (Submission.ID w) true
           /\ ProblemResult.Penalty pr
              = NullInt64.Int64 (Submission.Penalty w)
           /\ ProblemResult.Solved pr
              = bool_decide (Submission.Verdict w = VerdictAccepted)).
Proof.
  unfold CompareScores, CompareScores_loop.
  destruct (for_range _ subs _) as [st| |] eqn:E; simpl; try discriminate.
  destruct (Best.which st) as [w|] eqn:Ew.
  - destruct (for_range_step_which _ _ _ _ _ E)
      as [[Ew' _]|(w' & Ew' & Hin & Hc)]; [simpl in Ew'; congruence|].
    assert (w' = w) by congruence. subst w'.
    rewrite scoreOf_counting, Hc. simpl. intros [= <-]. simpl.
    repeat split. right. exists w. repeat split; auto.
  - destruct (scoreOf None) as [[sc pen] c]. intros [= <-].
    repeat split. left. split; [|reflexivity].
    destruct (decide (Exists (fun x => counting x = true) subs)) as [Hex|Hex].
    + exfalso. apply (for_range_step_some _ _ _ _ _ E); [now left|exact Ew].
    + apply not_Exists_Forall in Hex; [|intros x; apply _].
      eapply Forall_impl; [exact Hex|]. simpl. intros x Hx.
      now destruct (counting x).
Qed.

(** Under Once a current best stays to the end. *)
Lemma Once_keeps (s : ScoreContext.t Tx) (ct : float)
    (l : list Submission.t) (st : Best.t) (w : Submission.t) :
  Problem.ScoringMode (ScoreContext.Problem s) = ScoringModeOnce ->
  Best.which st = Some w ->
  exists n, for_range (CompareScores_step s ct) l st
            = Ok (Best.mk (Best.maxScore st) (Some w) n).
Proof.
  intros Hm. revert st. induction l as [|x l IH]; intros st Hw; simpl.
  - exists (Best.counted st). destruct st; simpl in *. now subst.
  - unfold CompareScores_step at 1. rewrite scoreOf_counting.
    destruct (counting x); simpl.
    + rewrite Hm, Hw. simpl.
      destruct (IH (Best.mk (Best.maxScore st) (Best.which st)
                            (Best.counted st + 1)) Hw) as [n E].
      exists n. exact E.
    + now apply IH.
Qed.

Lemma CompareScores_of_state (s : ScoreContext.t Tx)
    (subs : list Submission.t) (score : float) (w : Submission.t) (n : Z) :
  CompareScores_loop s subs = Ok (Best.mk score (Some w) n) ->
  counting w = true ->
  CompareScores s subs
  = Ok (ProblemResult.mk
          (NullInt64.mk (Submission.ID w) true)
          (NullInt64.Int64 (Submission.Penalty w))
          score
          (bool_decide (Submission.Verdict w = VerdictAccepted))
          (Problem.ID (ScoreContext.Problem s))
          (Submission.UserID (ScoreContext.Sub s))).
Proof.
  intros E Hc. unfold CompareScores. rewrite E.
  cbn [bind Best.which Best.maxScore]. now rewrite scoreOf_counting, Hc.
Qed.

(** X13: under the Once policy the first counting submission of the list
    is selected, with its stored score, whatever comes after it. *)
Theorem CompareScores_Once (s : ScoreContext.t Tx)
    (l1 l2 : list Submission.t) (w : Submission.t) :
  Problem.ScoringMode (ScoreContext.Problem s) = ScoringModeOnce ->
  Forall (fun x => counting x = false) l1 ->
  counting w = true ->
  CompareScores s (l1 ++ w :: l2)
  = Ok (ProblemResult.mk
          (NullInt64.mk (Submission.ID w) true)
          (NullInt64.Int64 (Submission.Penalty w))
          (stored_score w)
          (bool_decide (Submission.Verdict w = VerdictAccepted))
          (Problem.ID (ScoreContext.Problem s))
          (Submission.UserID (ScoreContext.Sub s))).
Proof.
  intros Hm H1 Hc.
  destruct (Once_keeps s (contestTime s) l2
              (Best.mk (stored_score w) (Some w) (0 + 1)) w Hm eq_refl)
    as [n E].
  apply (CompareScores_of_state s _ _ w n); [|exact Hc].
  unfold CompareScores_loop.
  rewrite for_range_app, for_range_step_none_counting by exact H1.
  simpl. unfold CompareScores_step at 1.
  rewrite scoreOf_counting, Hc, Hm. simpl. exact E.
Qed.

(** X14: under the Last policy the last counting submission of the list
    is selected, with its stored score, whatever comes before it. *)
Theorem CompareScores_Last (s : ScoreContext.t Tx)
    (l1 l2 : list Submission.t) (w : Submission.t) :
  Problem.ScoringMode (ScoreContext.Problem s) = ScoringModeLast ->
  counting w = true ->
  Forall (fun x => counting x = false) l2 ->
  CompareScores s (l1 ++ w :: l2)
  = Ok (ProblemResult.mk
          (NullInt64.mk (Submission.ID w) true)
          (NullInt64.Int64 (Submission.Penalty w))
          (stored_score w)
          (bool_decide (Submission.Verdict w = VerdictAccepted))
          (Problem.ID (ScoreContext.Problem s))
          (Submission.UserID (ScoreContext.Sub s))).
Proof.
  intros Hm Hc H2.
  destruct (for_range_step_known s (contestTime s) l1
              (Best.mk 0%float None 0)) as [st1 E1].
  { intros raw. rewrite Hm. discriminate. }
  apply (CompareScores_of_state s _ _ w (Best.counted st1 + 1)); [|exact Hc].
  unfold CompareScores_loop. rewrite for_range_app, E1. simpl.
  unfold CompareScores_step at 1. rewrite scoreOf_counting, Hc, Hm. simpl.
  now rewrite for_range_step_none_counting.
Qed.

(** Under Decay the score kept with a current best is a capped one. *)
Lemma Decay_loop_capped (s : ScoreContext.t Tx) (ct : float)
    (subs : list Submission.t) (st st' : Best.t) :
  Problem.ScoringMode (ScoreContext.Problem s) = ScoringModeDecay ->
  for_range (CompareScores_step s ct) subs st = Ok st' ->
  is_nan (Best.maxScore st) = true
  \/ (Best.maxScore st <=? 0.3)%float = true ->
  is_nan (Best.maxScore st') = true
  \/ (Best.maxScore st' <=? 0.3)%float = true.
Proof.
  intros Hm. revert st. induction subs as [|x subs IH]; intros st; simpl.
  - now intros [= <-].
  - rewrite CompareScores_step_Decay by exact Hm. simpl.
    intros E Hcap. apply (IH _ E). clear E IH.
    destruct (counting x); [|exact Hcap]. cbn zeta. simpl.
    unfold Best_case. destruct (Best.which st) as [w|].
    + destruct (F64.geb _ _); simpl; [apply Min_capped|exact Hcap].
    + simpl. apply Min_capped.
Qed.

(** X15: under the Decay policy the score of the standing never exceeds
    0.3: it is NaN or at most 0.3, whatever the stored scores are. *)
Theorem CompareScores_Decay_capped (s : ScoreContext.t Tx)
    (subs : list Submission.t) (pr : ProblemResult.t) :
  Problem.ScoringMode (ScoreContext.Problem s) = ScoringModeDecay ->
  CompareScores s subs = Ok pr ->
  is_nan (ProblemResult.Score pr) = true
  \/ (ProblemResult.Score pr <=? 0.3)%float = true.
Proof.
  intros Hm. unfold CompareScores, CompareScores_loop.
  destruct (for_range _ subs _) as [st| |] eqn:E; simpl; try discriminate.
  pose proof (Decay_loop_capped s _ subs _ st Hm E
                ltac:(right; reflexivity)) as Hcap.
  destruct (scoreOf (Best.which st)) as [[sc pen] c].
  destruct (Best.which st) as [w|]; [destruct c|]; simpl;
    intros [= <-]; simpl; auto.
Qed.

End MoreSelectionFacts.

(** ** The whole of [Score] *)

Section MoreScoreFacts.

Context {Tx : Type} `{Storage Tx}.

Lemma Score_unfold (s : ScoreContext.t Tx) :
  Score s
  = match TestResults s with
    | Ok testResults =>
        match GetProblemTests (ScoreContext.DB s)
                (Problem.ID (ScoreContext.Problem s)) with
        | Success tests =>
            if 0 <? len (MissingTests tests testResults) then
              writes (fun s =>
                        BatchInsertJobs (ScoreContext.DB s)
                          (missing_jobs (Submission.ID (ScoreContext.Sub s))
                             (MissingTests tests testResults))) s
            else
              seq (for_each tests (add_group testResults))
                  (fun _ => Score_tail tests)
                  (ScoreContext.set_Sub
                     (Submission.set_Score (NullFloat64.mk 0 true)
                        (ScoreContext.Sub s)) s)
        | Failure e => (Err e, s)
        end
    | Err e => (Err e, s)
    | Panic p => (Panic p, s)
    end.
Proof.
  unfold Score, seq at 1, reads at 1.
  destruct (TestResults s) as [tr| |]; try reflexivity.
  unfold seq at 1, reads at 1.
  destruct (GetProblemTests _ _) as [tests|e]; simpl; [|reflexivity].
  destruct (0 <? len (MissingTests tests tr)); reflexivity.
Qed.

Lemma TestResults_no_panic (s : ScoreContext.t Tx) (p : panic) :
  TestResults s <> Panic p.
Proof.
  unfold TestResults. now destruct (GetSubmissionTestResults _ _).
Qed.

(** [ScoreGroup] panics in two ways only. *)
Lemma ScoreGroup_panic_kinds (tg : TestGroupWithTests.t)
    (results : gmap Z TestResult.t) (p : panic) :
  ScoreGroup tg results = Panic p ->
  (p = NilDereference
   /\ ~ all_present results (TestGroupWithTests.Tests tg))
  \/ exists msg, p = UnknownTestScoringMode msg.
Proof.
  unfold ScoreGroup.
  destruct (TestGroupWithTests.Score tg <? 0)%float; [discriminate|].
  destruct (TestGroupWithTests.ScoringMode tg) as [| | |raw].
  - destruct (for_range_scores_outcome PrimFloat.add results
                (TestGroupWithTests.Tests tg) 0%float) as [[v E]|E];
      rewrite E; simpl; [discriminate|]. intros [= <-]. left.
    split; [reflexivity|].
    now apply (for_range_scores_nil PrimFloat.add) in E.
  - destruct (for_range_scores_outcome
                (fun r x => if (r <? x)%float then x else r) results
                (TestGroupWithTests.Tests tg) 1%float) as [[v E]|E];
      rewrite E; simpl; [discriminate|]. intros [= <-]. left.
    split; [reflexivity|].
    now apply (for_range_scores_nil (fun r x => if (r <? x)%float then x else r)) in E.
  - destruct (for_range_scores_outcome PrimFloat.mul results
                (TestGroupWithTests.Tests tg) 1%float) as [[v E]|E];
      rewrite E; simpl; [discriminate|]. intros [= <-]. left.
    split; [reflexivity|].
    now apply (for_range_scores_nil PrimFloat.mul) in E.
  - intros [= <-]. right. now eexists.
Qed.

Lemma ScoreGroup_no_error (tg : TestGroupWithTests.t)
    (results : gmap Z TestResult.t) (e : error) :
  ScoreGroup tg results <> Err e.
Proof.
  unfold ScoreGroup.
  destruct (TestGroupWithTests.Score tg <? 0)%float; [discriminate|].
  destruct (TestGroupWithTests.ScoringMode tg) as [| | |raw]; [| | |discriminate].
  - destruct (for_range_scores_outcome PrimFloat.add results
                (TestGroupWithTests.Tests tg) 0%float) as [[v E]|E];
      rewrite E; discriminate.
  - destruct (for_range_scores_outcome
                (fun r x => if (r <? x)%float then x else r) results
                (TestGroupWithTests.Tests tg) 1%float) as [[v E]|E];
      rewrite E; discriminate.
  - destruct (for_range_scores_outcome PrimFloat.mul results
                (TestGroupWithTests.Tests tg) 1%float) as [[v E]|E];
      rewrite E; discriminate.
Qed.

(** The loop over the groups: it ends with the accumulated score on the
    submission, or with the panic of one of the groups; storage is not
    touched. *)
Lemma for_each_add_group (tr : gmap Z TestResult.t)
    (tests : list TestGroupWithTests.t) (s : ScoreContext.t Tx) :
  match for_each tests (add_group tr) s with
  | (Ok _, s') =>
      Forall (fun tg => exists v, ScoreGroup tg tr = Ok v) tests
      /\ s' = ScoreContext.set_Sub
                (Submission.set_Score
                   (NullFloat64.mk
                      (accumulate tr tests
                         (NullFloat64.Float64
                            (Submission.Score (ScoreContext.Sub s))))
                      (NullFloat64.Valid
                         (Submission.Score (ScoreContext.Sub s))))
                   (ScoreContext.Sub s))
                s
  | (Panic p, s') =>
      ScoreContext.DB s' = ScoreContext.DB s
      /\ exists tg, tg ∈ tests /\ ScoreGroup tg tr = Panic p
  | (Err e, s') => False
  end.
Proof.
  revert s. induction tests as [|tg tests IH]; intros s.
  - simpl. split; [constructor|].
    destruct s as [db [id u pid src [f v] pen ver t] pb ct]. reflexivity.
  - cbn [for_each]. unfold seq at 1, add_group at 1, seq at 1, reads at 1.
    destruct (ScoreGroup tg tr) as [[sc counts]|e|p] eqn:E.
    + destruct counts; cbn [snd fst modify_Sub ret].
      * specialize (IH (ScoreContext.set_Sub
                          (Submission.set_Score
                             (NullFloat64.mk
                                (NullFloat64.Float64
                                   (Submission.Score (ScoreContext.Sub s)) + sc)%float
                                (NullFloat64.Valid
                                   (Submission.Score (ScoreContext.Sub s))))
                             (ScoreContext.Sub s)) s)).
        destruct (for_each tests (add_group tr) _) as [[[]|e|p] s'].
        -- destruct IH as [Hall ->]. split; [constructor; eauto|].
           unfold accumulate. simpl. rewrite E. reflexivity.
        -- exact IH.
        -- destruct IH as [Hdb (tg' & Hin & Hp)]. split; [exact Hdb|].
           exists tg'. split; [now constructor|exact Hp].
      * specialize (IH s).
        destruct (for_each tests (add_group tr) s) as [[[]|e|p] s'].
        -- destruct IH as [Hall ->]. split; [constructor; eauto|].
           unfold accumulate. simpl. rewrite E. reflexivity.
        -- exact IH.
        -- destruct IH as [Hdb (tg' & Hin & Hp)]. split; [exact Hdb|].
           exists tg'. split; [now constructor|exact Hp].
    + now apply ScoreGroup_no_error in E.
    + split; [reflexivity|]. exists tg. split; [constructor|exact E].
Qed.

(** With a result for every test, the accumulated score is the sum of
    the contributions of the groups whose weight is not below zero. *)
Lemma accumulate_total (tr : gmap Z TestResult.t)
    (tests : list TestGroupWithTests.t) (start : float) :
  Forall (fun tg => all_present tr (TestGroupWithTests.Tests tg)) tests ->
  Forall (fun tg => exists v, ScoreGroup tg tr = Ok v) tests ->
  accumulate tr tests start = total_from start tests tr
  /\ Forall (fun tg =>
               (TestGroupWithTests.Score tg <? 0)%float = false ->
               forall raw, TestGroupWithTests.ScoringMode tg
                           <> TestScoringModeOther raw) tests.
Proof.
  intros Hall Hok. revert start.
  induction Hall as [|tg tests Hp _ IH]; intros start.
  - split; [reflexivity|constructor].
  - apply Forall_cons in Hok as [[v Hv] Hok].
    change (accumulate tr (tg :: tests) start)
      with (accumulate tr tests
              (match ScoreGroup tg tr with
               | Ok (score, true) => (start + score)%float
               | _ => start
               end)).
    change (total_from start (tg :: tests) tr)
      with (total_from
              (if (TestGroupWithTests.Score tg <? 0)%float then start
               else (start + contribution tg tr)%float) tests tr).
    destruct (TestGroupWithTests.Score tg <? 0)%float eqn:Hw.
    + rewrite (ScoreGroup_negative tg tr Hw).
      destruct (IH Hok start) as [E Hm]. split; [exact E|].
      constructor; [intros Hx; congruence|exact Hm].
    + unfold contribution.
      destruct (TestGroupWithTests.ScoringMode tg) as [| | |raw] eqn:Em.
      * rewrite (ScoreGroup_Sum_eq tg tr Em Hw Hp).
        destruct (IH Hok (start + TestGroupWithTests.Score tg
                          * (sum_scores (group_scores tr (TestGroupWithTests.Tests tg))
                             / F64.of_int (len (TestGroupWithTests.Tests tg))))%float)
          as [E Hm].
        split; [exact E|]. constructor; [intros _ raw; congruence|exact Hm].
      * rewrite (ScoreGroup_Min_eq tg tr Em Hw Hp).
        destruct (IH Hok (start + TestGroupWithTests.Score tg
                          * running_max 1 (group_scores tr (TestGroupWithTests.Tests tg)))%float)
          as [E Hm].
        split; [exact E|]. constructor; [intros _ raw; congruence|exact Hm].
      * rewrite (ScoreGroup_Product_eq tg tr Em Hw Hp).
        destruct (IH Hok (start + TestGroupWithTests.Score tg
                          * product_scores (group_scores tr (TestGroupWithTests.Tests tg)))%float)
          as [E Hm].
        split; [exact E|]. constructor; [intros _ raw; congruence|exact Hm].
      * exfalso. unfold ScoreGroup in Hv. rewrite Hw, Em in Hv. discriminate.
Qed.

End MoreScoreFacts.

Lemma MissingTests_lacking_nil (tests : list TestGroupWithTests.t)
    (results : gmap Z TestResult.t) :
  MissingTests tests results = []
  <-> Forall (fun tg => all_present results (TestGroupWithTests.Tests tg))
             tests.
Proof. rewrite MissingTests_lacking. apply lacking_nil. Qed.

Section ScoreWhole.

Context {Tx : Type} `{Storage Tx}.

(** The steps after the loop: what a success went through, and where a
    panic leaves the transaction. *)
Lemma Score_tail_spec (tests : list TestGroupWithTests.t)
    (s1 : ScoreContext.t Tx) :
  match Score_tail tests s1 with
  | (Ok _, s') =>
      exists sub2 db1 subs pr db2,
        ComputePenalties s1 (ScoreContext.Sub s1) = Ok sub2
        /\ Submission_Write (UpdateVerdict tests sub2) (ScoreContext.DB s1)
           = Success db1
        /\ GetUserProblemSubmissions db1
             (Submission.UserID (UpdateVerdict tests sub2))
             (Problem.ID (ScoreContext.Problem s1))
           = Success subs
        /\ CompareScores
             (ScoreContext.mk db1 (UpdateVerdict tests sub2)
                (ScoreContext.Problem s1) (ScoreContext.Contest s1)) subs
           = Ok pr
        /\ ProblemResult_Write pr db1 = Success db2
        /\ s' = ScoreContext.mk db2 (UpdateVerdict tests sub2)
                  (ScoreContext.Problem s1) (ScoreContext.Contest s1)
  | (Panic p, s') =>
      (p = UnknownPenaltyPolicy
       /\ ScoreContext.DB s' = ScoreContext.DB s1)
      \/ (p = UnknownScoringMode
          /\ exists sub,
               Submission_Write sub (ScoreContext.DB s1)
               = Success (ScoreContext.DB s'))
  | (Err e, s') => True
  end.
Proof.
  unfold Score_tail. unfold seq at 1, reads at 1.
  destruct (ComputePenalties s1 (ScoreContext.Sub s1)) as [sub2|e|p] eqn:Ep;
    [|exact I|].
  2:{ left. apply ComputePenalties_panics in Ep as [-> _]. now split. }
  unfold seq at 1, modify_Sub at 1. unfold seq at 1, modify_Sub at 1.
  unfold seq at 1, writes at 1. cbn [ScoreContext.Sub ScoreContext.DB
    ScoreContext.set_Sub ScoreContext.set_DB ScoreContext.Problem
    ScoreContext.Contest].
  destruct (Submission_Write (UpdateVerdict tests sub2) (ScoreContext.DB s1))
    as [db1|e] eqn:Ew; [|exact I].
  unfold seq at 1, reads at 1. cbn [ScoreContext.Sub ScoreContext.DB
    ScoreContext.set_Sub ScoreContext.set_DB ScoreContext.Problem
    ScoreContext.Contest].
  destruct (GetUserProblemSubmissions db1 _ _) as [subs|e] eqn:Eg;
    [|exact I]. cbn [propagate].
  unfold seq at 1, reads at 1.
  destruct (CompareScores _ subs) as [pr|e|p] eqn:Ec; [|exact I|].
  2:{ right. apply CompareScores_panics in Ec as [-> _].
      split; [reflexivity|]. now exists (UpdateVerdict tests sub2). }
  unfold writes. cbn [ScoreContext.Sub ScoreContext.DB
    ScoreContext.set_Sub ScoreContext.set_DB ScoreContext.Problem
    ScoreContext.Contest].
  destruct (ProblemResult_Write pr db1) as [db2|e] eqn:Ep2; [|exact I].
  exists sub2, db1, subs, pr, db2. repeat split; auto.
Qed.

Lemma len_nil_of_not_pos {A} (l : list A) : (0 <? len l) = false -> l = [].
Proof.
  unfold len. intros E. apply Z.ltb_ge in E. destruct l; [reflexivity|].
  simpl in E. lia.
Qed.

(** X16: [Score] never dereferences a nil result.  When it panics, it is
    on a mode or policy that is none of the listed ones; a panic on the
    mode of a group or on the penalty policy comes before any write, so
    the transaction is as it was, and a panic on the selection policy
    comes after the write of the submission and before that of the
    standing. *)
Theorem Score_panics (s s' : ScoreContext.t Tx) (p : panic) :
  Score s = (Panic p, s') ->
  (((exists msg, p = UnknownTestScoringMode msg) \/ p = UnknownPenaltyPolicy)
   /\ ScoreContext.DB s' = ScoreContext.DB s)
  \/ (p = UnknownScoringMode
      /\ exists sub,
           Submission_Write sub (ScoreContext.DB s)
           = Success (ScoreContext.DB s')).
Proof.
  rewrite Score_unfold.
  destruct (TestResults s) as [tr|e|p0] eqn:Etr; [|discriminate|].
  2:{ now apply TestResults_no_panic in Etr. }
  destruct (GetProblemTests _ _) as [tests|e]; [|discriminate].
  destruct (0 <? len (MissingTests tests tr)) eqn:Hmiss.
  { unfold writes. destruct (BatchInsertJobs _ _); discriminate. }
  apply len_nil_of_not_pos in Hmiss.
  apply MissingTests_lacking_nil in Hmiss.
  unfold seq at 1.
  pose proof (for_each_add_group tr tests
                (ScoreContext.set_Sub
                   (Submission.set_Score (NullFloat64.mk 0 true)
                      (ScoreContext.Sub s)) s)) as Hloop.
  destruct (for_each tests (add_group tr) _) as [[[]|e|p1] s1].
  - destruct Hloop as [_ ->].
    pose proof (Score_tail_spec tests
                  (ScoreContext.set_Sub
                     (Submission.set_Score
                        (NullFloat64.mk
                           (accumulate tr tests
                              (NullFloat64.Float64
                                 (Submission.Score
                                    (ScoreContext.Sub
                                       (ScoreContext.set_Sub
                                          (Submission.set_Score
                                             (NullFloat64.mk 0 true)
                                             (ScoreContext.Sub s)) s)))))
                           (NullFloat64.Valid
                              (Submission.Score
                                 (ScoreContext.Sub
                                    (ScoreContext.set_Sub
                                       (Submission.set_Score
                                          (NullFloat64.mk 0 true)
                                          (ScoreContext.Sub s)) s)))))
                        (ScoreContext.Sub
                           (ScoreContext.set_Sub
                              (Submission.set_Score (NullFloat64.mk 0 true)
                                 (ScoreContext.Sub s)) s)))
                     (ScoreContext.set_Sub
                        (Submission.set_Score (NullFloat64.mk 0 true)
                           (ScoreContext.Sub s)) s))) as Htail.
    destruct (Score_tail tests _) as [[[]|e|p2] s2]; try discriminate.
    intros [= -> ->].
    destruct Htail as [[-> Hdb]|[-> Hw]]; [left|right]; auto.
  - destruct Hloop.
  - destruct Hloop as [Hdb (tg & Hin & Hp)]. intros [= -> ->].
    left. split; [|exact Hdb]. left.
    destruct (ScoreGroup_panic_kinds tg tr p Hp) as [[_ Hn]|Hmsg];
      [|exact Hmsg].
    exfalso. apply Hn. rewrite Forall_forall in Hmiss. now apply Hmiss.
Qed.

(** X17: when every test of every group has a result and [Score]
    succeeds, the submission of the context ends up as the one it was
    given with: the sum of the contributions of the groups whose weight is
    not below zero as its valid score (groups of negative weight add
    nothing), a valid penalty, and the verdict [UpdateVerdict] gives to
    that; all its other fields, the problem and the contest are as they
    were, and every group whose weight is not below zero has one of the
    three modes. *)
Theorem Score_scored (s s' : ScoreContext.t Tx)
    (tr : gmap Z TestResult.t) (tests : list TestGroupWithTests.t) :
  TestResults s = Ok tr ->
  GetProblemTests (ScoreContext.DB s) (Problem.ID (ScoreContext.Problem s))
  = Success tests ->
  Forall (fun tg => all_present tr (TestGroupWithTests.Tests tg)) tests ->
  Score s = (Ok tt, s') ->
  (exists value,
     ScoreContext.Sub s'
     = UpdateVerdict tests
         (Submission.set_Penalty (NullInt64.mk value true)
            (Submission.set_Score
               (NullFloat64.mk (total_from 0 tests tr) true)
               (ScoreContext.Sub s))))
  /\ ScoreContext.Problem s' = ScoreContext.Problem s
  /\ ScoreContext.Contest s' = ScoreContext.Contest s
  /\ Forall (fun tg =>
               (TestGroupWithTests.Score tg <? 0)%float = false ->
               forall raw, TestGroupWithTests.ScoringMode tg
                           <> TestScoringModeOther raw) tests.
Proof.
  intros Htr Htests Hall. rewrite Score_unfold, Htr, Htests.
  assert (Hmiss : MissingTests tests tr = [])
    by now apply MissingTests_lacking_nil.
  rewrite Hmiss. change (0 <? len []) with false. cbv iota.
  unfold seq at 1.
  pose proof (for_each_add_group tr tests
                (ScoreContext.set_Sub
                   (Submission.set_Score (NullFloat64.mk 0 true)
                      (ScoreContext.Sub s)) s)) as Hloop.
  destruct (for_each tests (add_group tr) _) as [[[]|e|p1] s1];
    try discriminate.
  destruct Hloop as [Hok ->].
  destruct (accumulate_total tr tests 0%float Hall Hok) as [Eacc Hmodes].
  cbn [ScoreContext.Sub ScoreContext.set_Sub Submission.Score
         Submission.set_Score NullFloat64.Float64 NullFloat64.Valid].
  rewrite Eacc.
  match goal with
  | |- Score_tail tests ?s1 = _ -> _ =>
      pose proof (Score_tail_spec tests s1) as Htail;
      destruct (Score_tail tests s1) as [[[]|e|p2] s2]; try discriminate
  end.
  intros [= ->].
  destruct Htail as (sub2 & db1 & subs & pr & db2 & Hp & _ & _ & _ & _ & ->).
  apply ComputePenalties_ok in Hp as [value ->].
  cbn [ScoreContext.Sub ScoreContext.set_Sub ScoreContext.Problem
         ScoreContext.Contest].
  split; [|repeat split; exact Hmodes].
  exists value.
  destruct s as [db [id u pid src sc pen ver t] pb ct]. reflexivity.
Qed.

End ScoreWhole.

(** ** More on verdicts *)

Lemma counting_set_Verdict (v : string) (sub : Submission.t) :
  counting (Submission.set_Verdict v sub) = counting sub.
Proof. reflexivity. Qed.

(** X18: [UpdateVerdict] is idempotent, and the verdict it sets is one of
    "Compile Error", "Scored" and "Accepted". *)
Theorem UpdateVerdict_idempotent (tests : list TestGroupWithTests.t)
    (sub : Submission.t) :
  UpdateVerdict tests (UpdateVerdict tests sub) = UpdateVerdict tests sub
  /\ (Submission.Verdict (UpdateVerdict tests sub) = VerdictCompileError
      \/ Submission.Verdict (UpdateVerdict tests sub) = VerdictScored
      \/ Submission.Verdict (UpdateVerdict tests sub) = VerdictAccepted).
Proof.
  assert (E : forall sub0,
             UpdateVerdict tests sub0
             = if counting sub0 then
                 if (stored_score sub0 =? sumPositiveWeights tests)%float
                 then Submission.set_Verdict VerdictAccepted sub0
                 else Submission.set_Verdict VerdictScored sub0
               else Submission.set_Verdict VerdictCompileError sub0).
  { intros sub0. unfold UpdateVerdict. rewrite scoreOf_counting.
    destruct (counting sub0); simpl; [|reflexivity].
    now rewrite maxPossibleScore_filter. }
  rewrite (E sub). destruct (counting sub) eqn:Hc.
  - destruct (stored_score sub =? sumPositiveWeights tests)%float eqn:He.
    + rewrite E, counting_set_Verdict, Hc.
      change (stored_score (Submission.set_Verdict VerdictAccepted sub))
        with (stored_score sub).
      rewrite He. split; [reflexivity|auto].
    + rewrite E, counting_set_Verdict, Hc.
      change (stored_score (Submission.set_Verdict VerdictScored sub))
        with (stored_score sub).
      rewrite He. split; [reflexivity|auto].
  - rewrite E, counting_set_Verdict, Hc. split; [reflexivity|auto].
Qed.

(** X19: a counting submission whose score is NaN is never "Accepted":
    its verdict is "Scored", whatever the groups are. *)
Theorem UpdateVerdict_NaN (tests : list TestGroupWithTests.t)
    (sub : Submission.t) :
  counting sub = true ->
  is_nan (stored_score sub) = true ->
  Submission.Verdict (UpdateVerdict tests sub) = VerdictScored.
Proof.
  intros Hc Hn. unfold UpdateVerdict. rewrite scoreOf_counting, Hc. simpl.
  now rewrite (eqb_nan_l _ _ Hn).
Qed.

Lemma UpdateVerdict_NaN_witness :
  Submission.Verdict (UpdateVerdict [Ex2.empty_group] (Ex.scored 11 nan 10))
  = VerdictScored.
Proof.
  apply (UpdateVerdict_NaN [Ex2.empty_group] (Ex.scored 11 nan 10));
    reflexivity.
Defined.

(** ** Witnesses for the selection and for [Score] *)

Lemma CompareScores_standing_witness :
  ProblemResult.ProblemID
    (ProblemResult.mk (NullInt64.mk 12 true) 0 70 false 1 "alice")
  = Problem.ID (ScoreContext.Problem Ex.best_ctx)
  /\ ProblemResult.UserID
       (ProblemResult.mk (NullInt64.mk 12 true) 0 70 false 1 "alice")
     = Submission.UserID (ScoreContext.Sub Ex.best_ctx)
  /\ ((Forall (fun x => counting x = false) Ex.three_subs
       /\ ProblemResult.mk (NullInt64.mk 12 true) 0 70 false 1 "alice"
          = no_standing Ex.best_ctx)
      \/ exists w,
           w ∈ Ex.three_subs /\ counting w = true
           /\ ProblemResult.BestSubmissionID
                (ProblemResult.mk (NullInt64.mk 12 true) 0 70 false 1 "alice")
              = NullInt64.mk (Submission.ID w) true
           /\ ProblemResult.Penalty
                (ProblemResult.mk (NullInt64.mk 12 true) 0 70 false 1 "alice")
              = NullInt64.Int64 (Submission.Penalty w)
           /\ ProblemResult.Solved
                (ProblemResult.mk (NullInt64.mk 12 true) 0 70 false 1 "alice")
              = bool_decide (Submission.Verdict w = VerdictAccepted)).
Proof.
  apply (CompareScores_standing Ex.best_ctx Ex.three_subs). reflexivity.
Defined.

Lemma CompareScores_Once_witness :
  CompareScores
    (Ex.ctx (Ex.store Ex.three_subs [] [] []) (Ex.scored 13 55 125)
            PenaltyPolicyNone ScoringModeOnce)
    ([Ex.uncompiled 10 5] ++ Ex.scored 11 40 10
       :: [Ex.scored 12 70 60; Ex.scored 13 55 125])
  = Ok (ProblemResult.mk (NullInt64.mk 11 true) 0 40 false 1 "alice").
Proof.
  apply (CompareScores_Once
           (Ex.ctx (Ex.store Ex.three_subs [] [] []) (Ex.scored 13 55 125)
                   PenaltyPolicyNone ScoringModeOnce)
           [Ex.uncompiled 10 5] [Ex.scored 12 70 60; Ex.scored 13 55 125]
           (Ex.scored 11 40 10)).
  - reflexivity.
  - repeat constructor.
  - reflexivity.
Defined.

Lemma CompareScores_Last_witness :
  CompareScores
    (Ex.ctx (Ex.store Ex.three_subs [] [] []) (Ex.scored 13 55 125)
            PenaltyPolicyNone ScoringModeLast)
    ([Ex.scored 11 40 10; Ex.scored 12 70 60] ++ Ex.scored 13 55 125
       :: [Ex.uncompiled 14 130])
  = Ok (ProblemResult.mk (NullInt64.mk 13 true) 0 55 false 1 "alice").
Proof.
  apply (CompareScores_Last
           (Ex.ctx (Ex.store Ex.three_subs [] [] []) (Ex.scored 13 55 125)
                   PenaltyPolicyNone ScoringModeLast)
           [Ex.scored 11 40 10; Ex.scored 12 70 60] [Ex.uncompiled 14 130]
           (Ex.scored 13 55 125)).
  - reflexivity.
  - reflexivity.
  - repeat constructor.
Defined.

Lemma CompareScores_Decay_capped_witness :
  is_nan 0.3 = true \/ (0.3 <=? 0.3)%float = true.
Proof.
  apply (CompareScores_Decay_capped Ex.decay_ctx Ex.three_subs
           (ProblemResult.mk (NullInt64.mk 11 true) 0 0.3 false 1 "alice")).
  - reflexivity.
  - reflexivity.
Defined.

(** An unknown penalty policy makes [Score] panic before any write. *)
Lemma Score_panics_witness :
  (((exists msg, UnknownPenaltyPolicy = UnknownTestScoringMode msg)
    \/ UnknownPenaltyPolicy = UnknownPenaltyPolicy)
   /\ ScoreContext.DB
        (snd (Score (Ex2.full_ctx (PenaltyPolicyOther "ACM") ScoringModeBest)))
      = ScoreContext.DB (Ex2.full_ctx (PenaltyPolicyOther "ACM") ScoringModeBest))
  \/ (UnknownPenaltyPolicy = UnknownScoringMode
      /\ exists sub,
           Submission_Write sub
             (ScoreContext.DB
                (Ex2.full_ctx (PenaltyPolicyOther "ACM") ScoringModeBest))
           = Success
               (ScoreContext.DB
                  (snd (Score (Ex2.full_ctx (PenaltyPolicyOther "ACM")
                                 ScoringModeBest))))).
Proof.
  apply (Score_panics (Ex2.full_ctx (PenaltyPolicyOther "ACM") ScoringModeBest)).
  reflexivity.
Defined.

(** On the sample store the groups contribute 7.5 and 8, the hidden group
    nothing: the score is 15.5. *)
Lemma Score_scored_witness :
  Submission.Score
    (ScoreContext.Sub
       (snd (Score (Ex2.full_ctx PenaltyPolicyNone ScoringModeBest))))
  = NullFloat64.mk 15.5 true.
Proof.
  destruct (Score_scored (Ex2.full_ctx PenaltyPolicyNone ScoringModeBest)
              (snd (Score (Ex2.full_ctx PenaltyPolicyNone ScoringModeBest)))
              (list_to_map
                 (map (fun r => (TestResult.TestID (snd r), snd r))
                      Ex2.full_rows))
              [Ex.sum_group; Ex2.hidden; Ex.product_group])
    as [[value E] _].
  - vm_compute. reflexivity.
  - reflexivity.
  - repeat constructor; eexists; vm_compute; reflexivity.
  - vm_compute. reflexivity.
  - rewrite E. reflexivity.
Defined.

(** * The submission page *)

Section PageFacts.

Context {DB : Type} `{Storage DB} `{PageQueries DB}.

(** X20: a context is collected only for the owner, inside the contest:
    when [getSubmissionCtx] succeeds, the path parameter is the decimal ID
    of the submission returned, that submission belongs to the user of the
    session, and its problem, which is the one returned, belongs to the
    contest of the session. *)
Theorem getSubmissionCtx_authorized (db : DB) (c : EchoContext.t)
    (ctx : SubmissionCtx.t) :
  getSubmissionCtx db c = Ok ctx ->
  getContestCtx db c = Success (SubmissionCtx.ContestCtx ctx)
  /\ (exists id,
        Atoi (EchoContext.Param c "submission") = Some id
        /\ GetSubmission db id = Success (SubmissionCtx.Submission ctx))
  /\ Submission.UserID (SubmissionCtx.Submission ctx)
     = ContestCtx.Me_ID (SubmissionCtx.ContestCtx ctx)
  /\ GetProblem db (Submission.ProblemID (SubmissionCtx.Submission ctx))
     = Success (SubmissionCtx.Problem ctx)
  /\ ProblemRow.ContestID (SubmissionCtx.Problem ctx)
     = ContestCtx.Contest_ID (SubmissionCtx.ContestCtx ctx)
  /\ GetProblemTestsMeta db
       (Problem.ID (ProblemRow.Problem (SubmissionCtx.Problem ctx)))
     = Success (SubmissionCtx.TestGroups ctx).
Proof.
  unfold getSubmissionCtx.
  destruct (getContestCtx db c) as [contest|e]; simpl; [|discriminate].
  destruct (Atoi _) as [id|]; [|discriminate].
  destruct (GetSubmission db id) as [sub|e] eqn:Es;
    [|destruct (IsErrNoRows e); discriminate].
  case_bool_decide as Hown; [discriminate|].
  destruct (GetProblem db _) as [problem|e] eqn:Ep; simpl; [|discriminate].
  case_bool_decide as Hct; [discriminate|].
  destruct (GetProblemTestsMeta db _) as [groups|e] eqn:Eg; simpl;
    [|discriminate].
  destruct (NullFloat64.Valid (Submission.Score sub)).
  - destruct (GetSubmissionTestResults db _) as [trs|e]; simpl;
      [|discriminate].
    intros [= <-]. simpl. repeat split; eauto.
  - simpl. intros [= <-]. simpl. repeat split; eauto.
Qed.

(** X21: the submission of another user is refused with [ErrForbidden]
    as soon as it is read: neither its problem nor its contest, tests or
    results are looked at. *)
Theorem getSubmissionCtx_forbidden (db : DB) (c : EchoContext.t)
    (contest : ContestCtx.t) (id : Z) (sub : Submission.t) :
  getContestCtx db c = Success contest ->
  Atoi (EchoContext.Param c "submission") = Some id ->
  GetSubmission db id = Success sub ->
  Submission.UserID sub <> ContestCtx.Me_ID contest ->
  getSubmissionCtx db c = Err ErrForbidden.
Proof.
  intros Hc Ha Hs Hown. unfold getSubmissionCtx.
  rewrite Hc. simpl. rewrite Ha, Hs. now rewrite bool_decide_true.
Qed.

(** X22: with a session, the page answers [ErrNotFound] when the path
    parameter is not a decimal integer, when no submission has that ID
    (the read fails with [sql.ErrNoRows]), and when the submission is the
    user's own but its problem belongs to another contest. *)
Theorem getSubmissionCtx_not_found (db : DB) (c : EchoContext.t)
    (contest : ContestCtx.t) :
  getContestCtx db c = Success contest ->
  Atoi (EchoContext.Param c "submission") = None
  \/ (exists id e,
        Atoi (EchoContext.Param c "submission") = Some id
        /\ GetSubmission db id = Failure e /\ IsErrNoRows e = true)
  \/ (exists id sub problem,
        Atoi (EchoContext.Param c "submission") = Some id
        /\ GetSubmission db id = Success sub
        /\ Submission.UserID sub = ContestCtx.Me_ID contest
        /\ GetProblem db (Submission.ProblemID sub) = Success problem
        /\ ProblemRow.ContestID problem <> ContestCtx.Contest_ID contest) ->
  getSubmissionCtx db c = Err ErrNotFound.
Proof.
  intros Hc Hcase. unfold getSubmissionCtx. rewrite Hc. simpl.
  destruct Hcase as [Ha|[(id & e & Ha & Hs & Hn)
                        |(id & sub & problem & Ha & Hs & Hown & Hp & Hct)]].
  - now rewrite Ha.
  - now rewrite Ha, Hs, Hn.
  - rewrite Ha, Hs, bool_decide_false by tauto.
    rewrite Hp. simpl. now rewrite bool_decide_true.
Qed.

(** X23: the page carries test results only for a submission whose score
    is set: the map is nil when the score is not valid (and no results are
    read then), and otherwise holds, for each test, the last row read for
    it. *)
Theorem getSubmissionCtx_results (db : DB) (c : EchoContext.t)
    (ctx : SubmissionCtx.t) :
  getSubmissionCtx db c = Ok ctx ->
  match SubmissionCtx.TestResults ctx with
  | None =>
      NullFloat64.Valid (Submission.Score (SubmissionCtx.Submission ctx))
      = false
  | Some m =>
      NullFloat64.Valid (Submission.Score (SubmissionCtx.Submission ctx))
      = true
      /\ exists trs,
           GetSubmissionTestResults db
             (Submission.ID (SubmissionCtx.Submission ctx))
           = Success trs
           /\ forall k, m !! k
                        = last (filter (fun tr => TestResult.TestID tr = k)
                                       trs)
  end.
Proof.
  unfold getSubmissionCtx.
  destruct (getContestCtx db c) as [contest|e]; simpl; [|discriminate].
  destruct (Atoi _) as [id|]; [|discriminate].
  destruct (GetSubmission db id) as [sub|e] eqn:Es;
    [|destruct (IsErrNoRows e); discriminate].
  case_bool_decide as Hown; [discriminate|].
  destruct (GetProblem db _) as [problem|e] eqn:Ep; simpl; [|discriminate].
  case_bool_decide as Hct; [discriminate|].
  destruct (GetProblemTestsMeta db _) as [groups|e] eqn:Eg; simpl;
    [|discriminate].
  destruct (NullFloat64.Valid (Submission.Score sub)) eqn:Hv.
  - destruct (GetSubmissionTestResults db _) as [trs|e] eqn:Er; simpl;
      [|discriminate].
    intros [= <-]. simpl. split; [exact Hv|]. exists trs.
    split; [exact Er|]. intros k.
    rewrite results_map_lookup, lookup_empty. now destruct (last _).
  - simpl. intros [= <-]. simpl. exact Hv.
Qed.

End PageFacts.

(** On the sample site: alice opens her scored submission 11. *)
Lemma getSubmissionCtx_authorized_witness :
  Submission.UserID (SubmissionCtx.Submission Ex2.page11)
  = ContestCtx.Me_ID (SubmissionCtx.ContestCtx Ex2.page11)
  /\ ProblemRow.ContestID (SubmissionCtx.Problem Ex2.page11)
     = ContestCtx.Contest_ID (SubmissionCtx.ContestCtx Ex2.page11).
Proof.
  destruct (getSubmissionCtx_authorized Ex2.site (Ex2.request "11")
              Ex2.page11)
    as (_ & _ & Hown & _ & Hct & _); [reflexivity|].
  split; [exact Hown|exact Hct].
Defined.

(** Alice asks for bob's submission 31. *)
Lemma getSubmissionCtx_forbidden_witness :
  getSubmissionCtx Ex2.site (Ex2.request "31") = Err ErrForbidden.
Proof.
  apply (getSubmissionCtx_forbidden Ex2.site (Ex2.request "31")
           (ContestCtx.mk 7 "alice") 31 (Ex2.bobs 31)); try reflexivity.
  discriminate.
Defined.

(** Alice asks for a submission that is not a number. *)
Lemma getSubmissionCtx_not_found_witness :
  getSubmissionCtx Ex2.site (Ex2.request "1x") = Err ErrNotFound.
Proof.
  apply (getSubmissionCtx_not_found Ex2.site (Ex2.request "1x")
           (ContestCtx.mk 7 "alice")); [reflexivity|].
  left. reflexivity.
Defined.

(** Alice opens her submission 15, which waits for its score: no results
    are shown. *)
Lemma getSubmissionCtx_results_witness :
  match SubmissionCtx.TestResults
          (SubmissionCtx.mk (ContestCtx.mk 7 "alice") (Ex.pending 15 50)
             (ProblemRow.mk (Problem.mk 1 PenaltyPolicyNone ScoringModeBest) 7)
             [Ex.sum_group] None) with
  | None => NullFloat64.Valid (Submission.Score (Ex.pending 15 50)) = false
  | Some m =>
      NullFloat64.Valid (Submission.Score (Ex.pending 15 50)) = true
      /\ exists trs,
           GetSubmissionTestResults Ex2.site (Submission.ID (Ex.pending 15 50))
           = Success trs
           /\ forall k, m !! k
                        = last (filter (fun tr => TestResult.TestID tr = k)
                                       trs)
  end.
Proof.
  apply (getSubmissionCtx_results Ex2.site (Ex2.request "15")).
  reflexivity.
Defined.

(** The page at work: the results of submission 11, where a later row
    for test 2 replaces the earlier one. *)
Example getSubmissionCtx_sample :
  exists ctx m,
    getSubmissionCtx Ex2.site (Ex2.request "11") = Ok ctx
    /\ SubmissionCtx.TestResults ctx = Some m
    /\ m !! 1 = Some (TestResult.mk 1 1.0)
    /\ m !! 2 = Some (TestResult.mk 2 0.25)
    /\ m !! 3 = None.
Proof. do 2 eexists. repeat split; reflexivity. Qed.

Example Atoi_samples :
  Atoi "42" = Some 42 /\ Atoi "-7" = Some (-7) /\ Atoi "+7" = Some 7
  /\ Atoi "" = None /\ Atoi "-" = None /\ Atoi "4 2" = None
  /\ Atoi "0x10" = None /\ Atoi "1_000" = None
  /\ Atoi "9223372036854775807" = Some Int64.MaxInt64
  /\ Atoi "9223372036854775808" = None
  /\ Atoi "-9223372036854775808" = Some Int64.MinInt64.
Proof. repeat split; reflexivity. Qed.

(** * The Decay policy on [CompareScores] *)

Section DecayFacts.

Context {Tx : Type} `{Storage Tx}.


End DecayFacts.



(** A current best whose stored score is above the recomputed one stays:
    stored 0.28 against 0.2721. *)
Example CompareScores_Decay_keeps :
  CompareScores Ex.decay_ctx [Ex3.early_028; Ex3.late]
  = Ok (ProblemResult.mk (NullInt64.mk 11 true) 0 0.3 false 1 "alice").
Proof. reflexivity. Qed.

(** * Nil entries *)

Lemma for_range_ext {A B} (f g : A -> B -> outcome A) (l : list B) (a : A) :
  (forall a b, f a b = g a b) -> for_range f l a = for_range g l a.
Proof.
  intros Hfg. revert a. induction l as [|b l IH]; intros a; simpl;
    [reflexivity|].
  rewrite Hfg. destruct (g a b); simpl; auto.
Qed.

Lemma lookup_non_nil (results : gmap Z (option TestResult.t)) (id : Z) :
  non_nil results !! id = lookup_ptr results id.
Proof.
  unfold non_nil, lookup_ptr. rewrite lookup_omap.
  now destruct (results !! id).
Qed.

(** A nil entry behaves as a missing one. *)
Lemma ScoreGroup_ptr_non_nil (tg : TestGroupWithTests.t)
    (results : gmap Z (option TestResult.t)) :
  ScoreGroup_ptr tg results = ScoreGroup tg (non_nil results).
Proof.
  unfold ScoreGroup_ptr, ScoreGroup.
  destruct (TestGroupWithTests.Score tg <? 0)%float; [reflexivity|].
  destruct (TestGroupWithTests.ScoringMode tg); try reflexivity;
    (erewrite for_range_ext;
     [reflexivity|intros a b; simpl; now rewrite lookup_non_nil]).
Qed.

(** X3: [ScoreGroup] dereferences a nil result exactly when the weight of
    the group is not below zero, its mode is Sum, Min or Product, and for
    one of its tests the map has no entry or a nil entry; it never
    returns an error; and on a map without nil entries it is the
    function [ScoreGroup] of the other theorems. *)
Theorem ScoreGroup_nil_dereference (tg : TestGroupWithTests.t)
    (results : gmap Z (option TestResult.t)) :
  (ScoreGroup_ptr tg results = Panic NilDereference
   <-> (TestGroupWithTests.Score tg <? 0)%float = false
       /\ (forall raw,
             TestGroupWithTests.ScoringMode tg <> TestScoringModeOther raw)
       /\ exists test,
            test ∈ TestGroupWithTests.Tests tg
            /\ (results !! Test.ID test = None
                \/ results !! Test.ID test = Some None))
  /\ (forall e, ScoreGroup_ptr tg results <> Err e)
  /\ (forall m : gmap Z TestResult.t,
        ScoreGroup_ptr tg (Some <$> m) = ScoreGroup tg m).
Proof.
  assert (Hpres : ~ all_present (non_nil results) (TestGroupWithTests.Tests tg)
                  <-> exists test,
                        test ∈ TestGroupWithTests.Tests tg
                        /\ (results !! Test.ID test = None
                            \/ results !! Test.ID test = Some None)).
  { unfold all_present. split.
    - intros Hn. apply not_Forall_Exists in Hn; [|intros x; apply _].
      apply Exists_exists in Hn as (test & Hin & Hno).
      exists test. split; [exact Hin|]. unfold compose in Hno.
      rewrite lookup_non_nil in Hno. unfold lookup_ptr in Hno.
      destruct (results !! Test.ID test) as [[r|]|]; auto.
      destruct Hno. now exists r.
    - intros (test & Hin & Hno) Hall.
      rewrite Forall_forall in Hall. specialize (Hall test Hin).
      cbv beta in Hall.
      rewrite lookup_non_nil in Hall. unfold lookup_ptr in Hall.
      destruct Hno as [E|E]; rewrite E in Hall; now destruct Hall. }
  rewrite ScoreGroup_ptr_non_nil.
  destruct (ScoreGroup_nil_iff tg (non_nil results)) as [Hiff Herr].
  split; [|split].
  - rewrite Hiff, Hpres. reflexivity.
  - exact Herr.
  - intros m. rewrite ScoreGroup_ptr_non_nil. f_equal.
    apply map_eq. intros k. unfold non_nil.
    rewrite lookup_omap, lookup_fmap. now destruct (m !! k).
Qed.

(** A nil entry for test 2 makes the group of tests 1 and 2 dereference
    nil, although both keys are in the map. *)
Example ScoreGroup_ptr_nil_entry :
  ScoreGroup_ptr Ex.sum_group Ex3.nil_entry = Panic NilDereference.
Proof. reflexivity. Qed.
